(** * open-im-server: session gatekeeping, admin checks and the push RPC

    A shallow embedding of three source files of the server:
    - [pkg/authverify/token.go]   (module [authverify]),
    - the push RPC server          (module [push], function [PushMsg]),
    - the API router               (module [api], functions [newGinRouter]
                                    and [GinParseToken]),
    with the remaining functions of [token.go] in module [authverify_claims]
    and those of the push server in module [push_server], followed by the
    properties proved about them.

    Code of imported packages (gin, the OpenIMSDK protocol and tools
    packages, the storage controllers) is not part of these files.  Constants
    of the protocol package and the option switch [utils.GetSwitchFromOptions]
    are written out, the small part of gin that gives [c.Set], [c.Abort] and
    [c.Next] their meaning is modelled in module [gin], and every other
    imported function is a member of a type class the definitions are
    parametric in. *)

From stdpp Require Import base decidable option strings pretty gmap list.
From Stdlib Require Import ZArith Lia.

Open Scope string_scope.
Open Scope list_scope.
Open Scope Z_scope.

(** ** A state monad for code that acts on a call context or a collaborator *)

Definition State (S A : Type) : Type := S → A * S.

#[global] Instance State_ret {S} : MRet (State S) := λ A a s, (a, s).
#[global] Instance State_bind {S} : MBind (State S) :=
  λ A B f m s, let '(a, s') := m s in f a s'.

Definition get {S} : State S S := λ s, (s, s).
Definition modify {S} (f : S → S) : State S unit := λ s, (tt, f s).
Definition exec {S A} (m : State S A) (s : S) : S := snd (m s).
Definition eval {S A} (m : State S A) (s : S) : A := fst (m s).

(** How a Go function ends: it returns, or it panics. *)
Inductive Outcome (A : Type) : Type :=
| Returns (a : A)
| Panics.
Arguments Returns {A} a.
Arguments Panics {A}.

(** ** github.com/OpenIMSDK/protocol/constant *)

Module constant.
Definition Token : string := "token".
Definition OpUserID : string := "opUserID".
Definition OpUserPlatform : string := "platform".
Definition IsSenderSync : string := "senderSync".
(* session types *)
Definition SingleChatType : Z := 1.
Definition GroupChatType : Z := 2.
Definition SuperGroupChatType : Z := 3.
Definition NotificationChatType : Z := 4.
(* token states kept in the token registry *)
Definition NormalToken : Z := 0.
Definition InValidToken : Z := 1.
Definition KickedToken : Z := 2.
Definition ExpiredToken : Z := 3.
End constant.

(** ** github.com/OpenIMSDK/tools/errs: typed errors *)

Module errs.
(** The error classes these files use. *)
Inductive CodeError : Type :=
| ErrArgs
| ErrNoPermission
| ErrTokenUnknown
| ErrTokenKicked
| ErrTokenNotExist.

#[global] Instance CodeError_eq_dec : EqDecision CodeError.
Proof. solve_decision. Defined.

(** [e.Wrap(msg...)]: the class together with the detail strings. *)
Record error : Type := mkError { Code : CodeError; Detail : list string }.

#[global] Instance error_eq_dec : EqDecision error.
Proof. solve_decision. Defined.

Definition Wrap (e : CodeError) (msg : list string) : error :=
  {| Code := e; Detail := msg |}.
End errs.

(** ** pkg/common/config: the fields of [GlobalConfig] these files read *)

Module config.
Record GlobalConfig : Type := mkGlobalConfig {
  Secret : string;
  TokenPolicy_Expire : Z;
  Manager_UserID : list string;
  IMAdmin_UserID : list string
}.
End config.

(** ** github.com/golang-jwt/jwt: a key function yields the signing key *)

Module jwt.
Definition Keyfunc : Type := unit → string.
End jwt.

(** ** pkg/authverify/token.go *)

Module authverify.
Import config.

(** [func Secret(secret string) jwt.Keyfunc] *)
Definition Secret (secret : string) : jwt.Keyfunc := λ _, secret.

(** Imported helpers: [mcontext.GetOpUserID] and [utils.IsContain]. *)
Class Tools : Type := {
  Ctx : Type;
  GetOpUserID : Ctx → string;
  IsContain : string → list string → bool
}.

Section defs.
Context `{Tools}.

Definition len (l : list string) : Z := Z.of_nat (length l).

Definition CheckAccessV3 (ctx : Ctx) (ownerUserID : string) (config : GlobalConfig)
  : option errs.error :=
  let opUserID := GetOpUserID ctx in
  if (0 <? len (Manager_UserID config)) && IsContain opUserID (Manager_UserID config)
  then None
  else if IsContain opUserID (IMAdmin_UserID config) then None
  else if String.eqb opUserID ownerUserID then None
  else Some (errs.Wrap errs.ErrNoPermission ["ownerUserID"; ownerUserID]).

Definition IsAppManagerUid (ctx : Ctx) (config : GlobalConfig) : bool :=
  ((0 <? len (Manager_UserID config))
     && IsContain (GetOpUserID ctx) (Manager_UserID config))
  || IsContain (GetOpUserID ctx) (IMAdmin_UserID config).

Definition CheckAdmin (ctx : Ctx) (config : GlobalConfig) : option errs.error :=
  if (0 <? len (Manager_UserID config))
       && IsContain (GetOpUserID ctx) (Manager_UserID config)
  then None
  else if IsContain (GetOpUserID ctx) (IMAdmin_UserID config) then None
  else Some (errs.Wrap errs.ErrNoPermission
               ["user " +:+ GetOpUserID ctx +:+ " is not admin userID"]).

Definition CheckIMAdmin (ctx : Ctx) (config : GlobalConfig) : option errs.error :=
  if IsContain (GetOpUserID ctx) (IMAdmin_UserID config) then None
  else if (0 <? len (Manager_UserID config))
            && IsContain (GetOpUserID ctx) (Manager_UserID config)
  then None
  else Some (errs.Wrap errs.ErrNoPermission
               ["user " +:+ GetOpUserID ctx +:+ " is not CheckIMAdmin userID"]).

Definition IsManagerUserID (opUserID : string) (config : GlobalConfig) : bool :=
  ((0 <? len (Manager_UserID config)) && IsContain opUserID (Manager_UserID config))
  || IsContain opUserID (IMAdmin_UserID config).
End defs.
End authverify.

(** ** github.com/OpenIMSDK/tools/utils *)

Module utils.
(** [func GetSwitchFromOptions(Options map[string]bool, key string) bool]:
    [if Options == nil { return true }] and
    [if flag, ok := Options[key]; !ok || flag { return true }; return false].
    A switch is on unless the options hold [false] for its key; a nil map
    holds no key. *)
Definition GetSwitchFromOptions (Options : gmap string bool) (key : string) : bool :=
  match Options !! key with
  | Some flag => if flag : bool then true else false
  | None => true
  end.
End utils.

(** ** The push RPC server *)

(** Protocol messages: the fields of [sdkws.MsgData] and of the push request
    that [PushMsg] reads.  [PushMsgReq.MsgData] is a pointer: a request can
    come without it ([None]). *)
Module sdkws.
Record MsgData : Type := mkMsgData {
  SendID : string;
  RecvID : string;
  GroupID : string;
  SessionType : Z;
  Options : gmap string bool
}.
End sdkws.

Module pbpush.
Record PushMsgReq : Type := mkPushMsgReq { MsgData : option sdkws.MsgData }.
Record PushMsgResp : Type := mkPushMsgResp { }.
End pbpush.

Module push.
Import sdkws pbpush.

(** The collaborators of the RPC server: the [Pusher] with its two delivery
    methods (which act on the pusher's own state) and the package's sentinel
    error [errNoOfflinePusher], compared by identity. *)
Class Pusher : Type := {
  error : Type;
  error_eq_dec :: EqDecision error;
  errNoOfflinePusher : error;
  PusherState : Type;
  Push2SuperGroup : string → sdkws.MsgData → PusherState → option error * PusherState;
  Push2User : list string → sdkws.MsgData → PusherState → option error * PusherState
}.

Section defs.
Context `{Pusher}.

(** What the server does to the outside: calls of the pusher, with the
    value each returned, and log records. *)
Inductive Call : Type :=
| CallPush2SuperGroup (groupID : string) (msg : sdkws.MsgData)
| CallPush2User (userIDs : list string) (msg : sdkws.MsgData).

Inductive Event : Type :=
| EvPusher (c : Call) (ret : option error)
| EvZWarn (msg : string) (err : error) (pbData : PushMsgReq).

Record World : Type := mkWorld { pusher : PusherState; trace : list Event }.

Definition emit (e : Event) : State World unit :=
  modify (λ w, {| pusher := pusher w; trace := trace w ++ [e] |}).

(** [r.pusher.Push2SuperGroup(ctx, groupID, msg)] *)
Definition pusher_Push2SuperGroup (groupID : string) (msg : sdkws.MsgData)
  : State World (option error) :=
  λ w, let '(err, p) := Push2SuperGroup groupID msg (pusher w) in
       (err, {| pusher := p;
                trace := trace w ++ [EvPusher (CallPush2SuperGroup groupID msg) err] |}).

(** [r.pusher.Push2User(ctx, userIDs, msg)] *)
Definition pusher_Push2User (userIDs : list string) (msg : sdkws.MsgData)
  : State World (option error) :=
  λ w, let '(err, p) := Push2User userIDs msg (pusher w) in
       (err, {| pusher := p;
                trace := trace w ++ [EvPusher (CallPush2User userIDs msg) err] |}).

(** [log.ZWarn(ctx, msg, err, "msg", pbData.String())] *)
Definition log_ZWarn (msg : string) (err : error) (pbData : PushMsgReq)
  : State World unit :=
  emit (EvZWarn msg err pbData).

(** [func (r *pushServer) PushMsg(ctx, pbData) (resp, err)].  The first
    thing it does is read [pbData.MsgData.SessionType]: on a request without
    [MsgData] that dereference panics. *)
Definition PushMsg (pbData : PushMsgReq)
  : State World (Outcome (option PushMsgResp * option error)) :=
  match MsgData pbData with
  | None => mret Panics
  | Some msgData =>
      err ← (if SessionType msgData =? constant.SuperGroupChatType
             then pusher_Push2SuperGroup (GroupID msgData) msgData
             else
               let pushUserIDList : list string := [] in
               let isSenderSync :=
                 utils.GetSwitchFromOptions (Options msgData) constant.IsSenderSync in
               let pushUserIDList :=
                 if negb isSenderSync
                 then pushUserIDList ++ [RecvID msgData]
                 else pushUserIDList ++ [RecvID msgData; SendID msgData] in
               pusher_Push2User pushUserIDList msgData);
      match err with
      | Some e =>
          if decide (e ≠ errNoOfflinePusher)
          then mret (Returns (None, Some e))
          else log_ZWarn "offline push failed" e pbData;;
               mret (Returns (Some mkPushMsgResp, None))
      | None => mret (Returns (Some mkPushMsgResp, None))
      end
  end.

(** *** Observations on a run *)

(** The pusher calls among a sequence of events, with what each returned. *)
Definition pusher_calls (tr : list Event) : list (Call * option error) :=
  omap (λ e, match e with EvPusher c r => Some (c, r) | EvZWarn _ _ _ => None end) tr.

(** The log records among a sequence of events. *)
Definition log_records (tr : list Event) : list (string * error * PushMsgReq) :=
  omap (λ e, match e with EvZWarn m e d => Some (m, e, d) | EvPusher _ _ => None end) tr.

(** The recipients of an event that goes to [Push2User]: the receiver, and
    the sender too when the sender-sync switch is on. *)
Definition direct_recipients (msg : sdkws.MsgData) : list string :=
  if utils.GetSwitchFromOptions (Options msg) constant.IsSenderSync
  then [RecvID msg; SendID msg] else [RecvID msg].

(** What the pusher itself answers to a call, and the state it is left in. *)
Definition pusher_answer (c : Call) (p : PusherState) : option error * PusherState :=
  match c with
  | CallPush2SuperGroup groupID msg => Push2SuperGroup groupID msg p
  | CallPush2User userIDs msg => Push2User userIDs msg p
  end.

(** The events one call of [PushMsg] adds to the trace. *)
Definition PushMsg_events (pbData : PushMsgReq) (w : World) : list Event :=
  drop (length (trace w)) (trace (exec (PushMsg pbData) w)).
End defs.
End push.

(** ** net/http and gin: requests, the call context and the handler chain *)

Module http.
Definition MethodGet : string := "GET".
Definition MethodPost : string := "POST".

(** Header names are kept in canonical form, values in arrival order. *)
Record Request : Type := mkRequest {
  Method : string;
  Header : gmap string (list string)
}.
End http.

Module gin.
(** What has been written to the client: error bodies written by
    [apiresp.GinError] and bodies written by API handlers. *)
Inductive Body : Type :=
| BodyError (e : errs.error)
| BodyData (s : string).

(** [gin.Context]: the request, the keys bound by [c.Set], the bodies
    written so far, and the position in the handler chain. *)
Record Context : Type := mkContext {
  Request : http.Request;
  Keys : gmap string string;
  Writer : list Body;
  index : Z
}.

(** [abortIndex = math.MaxInt8 >> 1] *)
Definition abortIndex : Z := 63.

Section chain.
Context {E : Type}.

(** A call in progress: its context and the observable events so far. *)
Record World : Type := mkWorld { ctx : Context; trace : list E }.

Definition on_ctx (f : Context → Context) : State World unit :=
  modify (λ w, {| ctx := f (ctx w); trace := trace w |}).

Definition emit (e : E) : State World unit :=
  modify (λ w, {| ctx := ctx w; trace := trace w ++ [e] |}).

Definition set_index (i : Z) (c : Context) : Context :=
  {| Request := Request c; Keys := Keys c; Writer := Writer c; index := i |}.

(** [c.Set(key, value)] *)
Definition Set_ (key value : string) : State World unit :=
  on_ctx (λ c, {| Request := Request c; Keys := <[key := value]> (Keys c);
                  Writer := Writer c; index := index c |}).

(** [c.Abort()] *)
Definition Abort : State World unit := on_ctx (set_index abortIndex).

(** [c.IsAborted()] *)
Definition IsAborted (c : Context) : bool := bool_decide (abortIndex ≤ index c).

(** Writing a body to the client, as [c.JSON] does. *)
Definition write (b : Body) : State World unit :=
  on_ctx (λ c, {| Request := Request c; Keys := Keys c;
                  Writer := Writer c ++ [b]; index := index c |}).

(** A handler receives, besides the call, what [c.Next()] means at its
    place in the chain. *)
Definition HandlerFunc : Type := State World unit → State World unit.

(** [c.index++] *)
Definition index_incr : State World unit :=
  on_ctx (λ c, set_index (index c + 1) c).

(** The loop of [c.Next()]:
    [for c.index < len(c.handlers) { c.handlers[c.index](c); c.index++ }].
    Every iteration and every nested [c.Next()] moves the index forward,
    and [fuel] bounds their number.  (The engine starts the index at
    [-1] and [c.Next()] increments it first, so the loop never sees a
    negative index; the model stops there.) *)
Fixpoint Next_loop (fuel : nat) (handlers : list HandlerFunc) : State World unit :=
  λ w,
    match fuel with
    | O => (tt, w)
    | S n =>
        if bool_decide (0 ≤ index (ctx w) < Z.of_nat (length handlers)) then
          match handlers !! Z.to_nat (index (ctx w)) with
          | Some h =>
              let c_Next : State World unit := index_incr;; Next_loop n handlers in
              (h c_Next;; index_incr;; Next_loop n handlers) w
          | None => (tt, w)
          end
        else (tt, w)
    end.

(** [c.Next()]: [c.index++], then the loop. *)
Definition Next (fuel : nat) (handlers : list HandlerFunc) : State World unit :=
  index_incr;; Next_loop fuel handlers.
End chain.

Arguments World : clear implicits.
Arguments HandlerFunc : clear implicits.
End gin.

(** ** github.com/OpenIMSDK/tools/tokenverify: the claims of a token *)

Module tokenverify.
Record Claims : Type := mkClaims { UserID : string; PlatformID : Z }.
End tokenverify.

(** ** The API router and its token middleware *)

Module api.
Import config http gin tokenverify.

(** The collaborators of the middleware:
    - [UniversalClient], the redis client holding the token registry;
    - [NewAuthDatabase], standing for
      [controller.NewAuthDatabase(cache.NewMsgCacheModel(rdb, config), ...)],
      whose method [GetTokensWithoutError] returns the tokens registered
      for a user and platform with their states, and an error;
    - [GetClaimFromToken] of the tokenverify package, with the key function;
    - [PlatformIDToName] of the protocol package;
    - [CanonicalMIMEHeaderKey], by which [Header.Get] finds a header;
    - [ApiBody], what the API handler of a given name does to the call. *)
Record AuthDatabase : Type := mkAuthDatabase {
  GetTokensWithoutError : string → Z → gmap string Z * option string
}.

Class Deps : Type := {
  UniversalClient : Type;
  NewAuthDatabase : UniversalClient → string → Z → GlobalConfig → AuthDatabase;
  GetClaimFromToken : string → jwt.Keyfunc → option Claims;
  PlatformIDToName : Z → string;
  CanonicalMIMEHeaderKey : string → string;
  ApiBody : string → Context → Context
}.

(** What a call does to the outside. *)
Inductive Event : Type :=
| EvZWarn (msg : string) (err : errs.error)
| EvGetTokens (userID : string) (platformID : Z)
| EvHandler (name : string) (c : Context).

(** *** The route table *)

(** The handlers a route can name: the three engine-wide handlers installed
    by [r.Use(gin.Recovery(), mw.CorsHandler(), mw.GinParseOperationID())],
    the token middleware (the one value
    [ParseToken := GinParseToken(rdb, config)] shared by all routes) and
    the API handlers, by their method expression. *)
Inductive HandlerName : Type :=
| Recovery
| CorsHandler
| GinParseOperationID
| ParseToken
| Api (name : string).

(** The three engine-wide handlers are imported functions. *)
Class EngineMiddleware : Type := {
  gin_Recovery : gin.HandlerFunc Event;
  mw_CorsHandler : gin.HandlerFunc Event;
  mw_GinParseOperationID : gin.HandlerFunc Event
}.

#[global] Instance HandlerName_eq_dec : EqDecision HandlerName.
Proof. solve_decision. Defined.

Record RouteInfo : Type := mkRouteInfo {
  RouteMethod : string;
  Path : string;
  Handlers : list HandlerName
}.

#[global] Instance RouteInfo_eq_dec : EqDecision RouteInfo.
Proof. solve_decision. Defined.

(** [gin.RouterGroup]: [Use] adds middleware to a group, [Group] extends
    the path and the middleware of its parent; a route gets the group's
    middleware followed by its own handlers. *)
Record RouterGroup : Type := mkRouterGroup {
  basePath : string;
  GroupHandlers : list HandlerName
}.

Definition Use (g : RouterGroup) (middleware : list HandlerName) : RouterGroup :=
  {| basePath := basePath g; GroupHandlers := GroupHandlers g ++ middleware |}.

Definition Group (g : RouterGroup) (relativePath : string) (handlers : list HandlerName)
  : RouterGroup :=
  {| basePath := basePath g +:+ relativePath;
     GroupHandlers := GroupHandlers g ++ handlers |}.

Definition handle (httpMethod : string) (g : RouterGroup) (relativePath : string)
    (handlers : list HandlerName) : RouteInfo :=
  {| RouteMethod := httpMethod;
     Path := basePath g +:+ relativePath;
     Handlers := GroupHandlers g ++ handlers |}.

Definition POST := handle MethodPost.
Definition GET := handle MethodGet.

(** [func newGinRouter(disCov, rdb, config) *gin.Engine]: the routes it
    registers, in source order, each with its whole chain: the engine-wide
    middleware of [r.Use], the middleware of its group, its own handlers. *)
Definition newGinRouter : list RouteInfo :=
  let r := {| basePath := ""; GroupHandlers := [] |} in
  let r := Use r [Recovery; CorsHandler; GinParseOperationID] in
  let userRouterGroup := Group r "/user" [] in
  let friendRouterGroup := Group r "/friend" [ParseToken] in
  let groupRouterGroup := Group r "/group" [ParseToken] in
  let superGroupRouterGroup := Group r "/super_group" [ParseToken] in
  let authRouterGroup := Group r "/auth" [] in
  let thirdGroup := Group r "/third" [ParseToken] in
  let logs := Group thirdGroup "/logs" [] in
  let objectGroup := Group r "/object" [ParseToken] in
  let msgGroup := Group r "/msg" [ParseToken] in
  let conversationGroup := Group r "/conversation" [ParseToken] in
  let statisticsGroup := Group r "/statistics" [ParseToken] in
  [
    POST userRouterGroup "/user_register" [Api "u.UserRegister"];
    POST userRouterGroup "/update_user_info" [ParseToken; Api "u.UpdateUserInfo"];
    POST userRouterGroup "/update_user_info_ex" [ParseToken; Api "u.UpdateUserInfoEx"];
    POST userRouterGroup "/set_global_msg_recv_opt" [ParseToken; Api "u.SetGlobalRecvMessageOpt"];
    POST userRouterGroup "/get_users_info" [ParseToken; Api "u.GetUsersPublicInfo"];
    POST userRouterGroup "/get_all_users_uid" [ParseToken; Api "u.GetAllUsersID"];
    POST userRouterGroup "/account_check" [ParseToken; Api "u.AccountCheck"];
    POST userRouterGroup "/get_users" [ParseToken; Api "u.GetUsers"];
    POST userRouterGroup "/get_users_online_status" [ParseToken; Api "u.GetUsersOnlineStatus"];
    POST userRouterGroup "/get_users_online_token_detail" [ParseToken; Api "u.GetUsersOnlineTokenDetail"];
    POST userRouterGroup "/subscribe_users_status" [ParseToken; Api "u.SubscriberStatus"];
    POST userRouterGroup "/get_users_status" [ParseToken; Api "u.GetUserStatus"];
    POST userRouterGroup "/get_subscribe_users_status" [ParseToken; Api "u.GetSubscribeUsersStatus"];
    POST userRouterGroup "/process_user_command_add" [ParseToken; Api "u.ProcessUserCommandAdd"];
    POST userRouterGroup "/process_user_command_delete" [ParseToken; Api "u.ProcessUserCommandDelete"];
    POST userRouterGroup "/process_user_command_update" [ParseToken; Api "u.ProcessUserCommandUpdate"];
    POST userRouterGroup "/process_user_command_get" [ParseToken; Api "u.ProcessUserCommandGet"];
    POST userRouterGroup "/process_user_command_get_all" [ParseToken; Api "u.ProcessUserCommandGetAll"];
    POST userRouterGroup "/add_notification_account" [ParseToken; Api "u.AddNotificationAccount"];
    POST userRouterGroup "/update_notification_account" [ParseToken; Api "u.UpdateNotificationAccountInfo"];
    POST userRouterGroup "/search_notification_account" [ParseToken; Api "u.SearchNotificationAccount"];
    POST friendRouterGroup "/delete_friend" [Api "f.DeleteFriend"];
    POST friendRouterGroup "/get_friend_apply_list" [Api "f.GetFriendApplyList"];
    POST friendRouterGroup "/get_designated_friend_apply" [Api "f.GetDesignatedFriendsApply"];
    POST friendRouterGroup "/get_self_friend_apply_list" [Api "f.GetSelfApplyList"];
    POST friendRouterGroup "/get_friend_list" [Api "f.GetFriendList"];
    POST friendRouterGroup "/get_designated_friends" [Api "f.GetDesignatedFriends"];
    POST friendRouterGroup "/add_friend" [Api "f.ApplyToAddFriend"];
    POST friendRouterGroup "/add_friend_response" [Api "f.RespondFriendApply"];
    POST friendRouterGroup "/set_friend_remark" [Api "f.SetFriendRemark"];
    POST friendRouterGroup "/add_black" [Api "f.AddBlack"];
    POST friendRouterGroup "/get_black_list" [Api "f.GetPaginationBlacks"];
    POST friendRouterGroup "/remove_black" [Api "f.RemoveBlack"];
    POST friendRouterGroup "/import_friend" [Api "f.ImportFriends"];
    POST friendRouterGroup "/is_friend" [Api "f.IsFriend"];
    POST friendRouterGroup "/get_friend_id" [Api "f.GetFriendIDs"];
    POST friendRouterGroup "/get_specified_friends_info" [Api "f.GetSpecifiedFriendsInfo"];
    POST friendRouterGroup "/update_friends" [Api "f.UpdateFriends"];
    POST groupRouterGroup "/create_group" [Api "g.CreateGroup"];
    POST groupRouterGroup "/set_group_info" [Api "g.SetGroupInfo"];
    POST groupRouterGroup "/join_group" [Api "g.JoinGroup"];
    POST groupRouterGroup "/quit_group" [Api "g.QuitGroup"];
    POST groupRouterGroup "/group_application_response" [Api "g.ApplicationGroupResponse"];
    POST groupRouterGroup "/transfer_group" [Api "g.TransferGroupOwner"];
    POST groupRouterGroup "/get_recv_group_applicationList" [Api "g.GetRecvGroupApplicationList"];
    POST groupRouterGroup "/get_user_req_group_applicationList" [Api "g.GetUserReqGroupApplicationList"];
    POST groupRouterGroup "/get_group_users_req_application_list" [Api "g.GetGroupUsersReqApplicationList"];
    POST groupRouterGroup "/get_groups_info" [Api "g.GetGroupsInfo"];
    POST groupRouterGroup "/kick_group" [Api "g.KickGroupMember"];
    POST groupRouterGroup "/get_group_members_info" [Api "g.GetGroupMembersInfo"];
    POST groupRouterGroup "/get_group_member_list" [Api "g.GetGroupMemberList"];
    POST groupRouterGroup "/invite_user_to_group" [Api "g.InviteUserToGroup"];
    POST groupRouterGroup "/get_joined_group_list" [Api "g.GetJoinedGroupList"];
    POST groupRouterGroup "/dismiss_group" [Api "g.DismissGroup"];
    POST groupRouterGroup "/mute_group_member" [Api "g.MuteGroupMember"];
    POST groupRouterGroup "/cancel_mute_group_member" [Api "g.CancelMuteGroupMember"];
    POST groupRouterGroup "/mute_group" [Api "g.MuteGroup"];
    POST groupRouterGroup "/cancel_mute_group" [Api "g.CancelMuteGroup"];
    POST groupRouterGroup "/set_group_member_info" [Api "g.SetGroupMemberInfo"];
    POST groupRouterGroup "/get_group_abstract_info" [Api "g.GetGroupAbstractInfo"];
    POST groupRouterGroup "/get_groups" [Api "g.GetGroups"];
    POST groupRouterGroup "/get_group_member_user_id" [Api "g.GetGroupMemberUserIDs"];
    POST superGroupRouterGroup "/get_joined_group_list" [Api "g.GetJoinedSuperGroupList"];
    POST superGroupRouterGroup "/get_groups_info" [Api "g.GetSuperGroupsInfo"];
    POST authRouterGroup "/user_token" [Api "a.UserToken"];
    POST authRouterGroup "/get_user_token" [ParseToken; Api "a.GetUserToken"];
    POST authRouterGroup "/parse_token" [Api "a.ParseToken"];
    POST authRouterGroup "/force_logout" [ParseToken; Api "a.ForceLogout"];
    GET thirdGroup "/prometheus" [Api "t.GetPrometheus"];
    POST thirdGroup "/fcm_update_token" [Api "t.FcmUpdateToken"];
    POST thirdGroup "/set_app_badge" [Api "t.SetAppBadge"];
    POST logs "/upload" [Api "t.UploadLogs"];
    POST logs "/delete" [Api "t.DeleteLogs"];
    POST logs "/search" [Api "t.SearchLogs"];
    POST objectGroup "/part_limit" [Api "t.PartLimit"];
    POST objectGroup "/part_size" [Api "t.PartSize"];
    POST objectGroup "/initiate_multipart_upload" [Api "t.InitiateMultipartUpload"];
    POST objectGroup "/auth_sign" [Api "t.AuthSign"];
    POST objectGroup "/complete_multipart_upload" [Api "t.CompleteMultipartUpload"];
    POST objectGroup "/access_url" [Api "t.AccessURL"];
    POST objectGroup "/initiate_form_data" [Api "t.InitiateFormData"];
    POST objectGroup "/complete_form_data" [Api "t.CompleteFormData"];
    GET objectGroup "/*name" [Api "t.ObjectRedirect"];
    POST msgGroup "/newest_seq" [Api "m.GetSeq"];
    POST msgGroup "/search_msg" [Api "m.SearchMsg"];
    POST msgGroup "/send_msg" [Api "m.SendMessage"];
    POST msgGroup "/send_business_notification" [Api "m.SendBusinessNotification"];
    POST msgGroup "/pull_msg_by_seq" [Api "m.PullMsgBySeqs"];
    POST msgGroup "/revoke_msg" [Api "m.RevokeMsg"];
    POST msgGroup "/mark_msgs_as_read" [Api "m.MarkMsgsAsRead"];
    POST msgGroup "/mark_conversation_as_read" [Api "m.MarkConversationAsRead"];
    POST msgGroup "/get_conversations_has_read_and_max_seq" [Api "m.GetConversationsHasReadAndMaxSeq"];
    POST msgGroup "/set_conversation_has_read_seq" [Api "m.SetConversationHasReadSeq"];
    POST msgGroup "/clear_conversation_msg" [Api "m.ClearConversationsMsg"];
    POST msgGroup "/user_clear_all_msg" [Api "m.UserClearAllMsg"];
    POST msgGroup "/delete_msgs" [Api "m.DeleteMsgs"];
    POST msgGroup "/delete_msg_phsical_by_seq" [Api "m.DeleteMsgPhysicalBySeq"];
    POST msgGroup "/delete_msg_physical" [Api "m.DeleteMsgPhysical"];
    POST msgGroup "/batch_send_msg" [Api "m.BatchSendMsg"];
    POST msgGroup "/check_msg_is_send_success" [Api "m.CheckMsgIsSendSuccess"];
    POST msgGroup "/get_server_time" [Api "m.GetServerTime"];
    POST conversationGroup "/get_sorted_conversation_list" [Api "c.GetSortedConversationList"];
    POST conversationGroup "/get_all_conversations" [Api "c.GetAllConversations"];
    POST conversationGroup "/get_conversation" [Api "c.GetConversation"];
    POST conversationGroup "/get_conversations" [Api "c.GetConversations"];
    POST conversationGroup "/set_conversations" [Api "c.SetConversations"];
    POST conversationGroup "/get_conversation_offline_push_user_ids" [Api "c.GetConversationOfflinePushUserIDs"];
    POST statisticsGroup "/user/register" [Api "u.UserRegisterCount"];
    POST statisticsGroup "/user/active" [Api "m.GetActiveUser"];
    POST statisticsGroup "/group/create" [Api "g.GroupCreateCount"];
    POST statisticsGroup "/group/active" [Api "m.GetActiveGroup"]
  ].

(** A route is gated when the token middleware is in its chain. *)
Definition gated (r : RouteInfo) : bool := bool_decide (ParseToken ∈ Handlers r).

(** The API handler of a chain made of the engine-wide handlers, the token
    middleware and one API handler. *)
Definition gated_chain_name (r : RouteInfo) : option string :=
  match Handlers r with
  | [Recovery; CorsHandler; GinParseOperationID; ParseToken; Api name] => Some name
  | _ => None
  end.

Section defs.
Context `{Deps} `{EngineMiddleware}.

Abbreviation World := (gin.World Event).
Abbreviation HandlerFunc := (gin.HandlerFunc Event).

(** [c.Request.Header.Get(key)]: the first value of the header, or the
    empty string. *)
Definition Header_Get (h : gmap string (list string)) (key : string) : string :=
  match h !! CanonicalMIMEHeaderKey key with
  | Some (v :: _) => v
  | _ => ""
  end.

(** [log.ZWarn(c, msg, err)] *)
Definition log_ZWarn (msg : string) (err : errs.error) : State World unit :=
  emit (EvZWarn msg err).

(** [apiresp.GinError(c, err)]: the error is written as the body. *)
Definition GinError (err : errs.error) : State World unit :=
  write (BodyError err).

(** [dataBase.GetTokensWithoutError(c, userID, platformID)] *)
Definition dataBase_GetTokensWithoutError (dataBase : AuthDatabase)
    (userID : string) (platformID : Z)
  : State World (gmap string Z * option string) :=
  emit (EvGetTokens userID platformID);;
  mret (GetTokensWithoutError dataBase userID platformID).

(** [func GinParseToken(rdb, config) gin.HandlerFunc] *)
Definition GinParseToken (rdb : UniversalClient) (config : GlobalConfig) : HandlerFunc :=
  let dataBase :=
    NewAuthDatabase rdb (config.Secret config) (TokenPolicy_Expire config) config in
  λ c_Next,
    w ← get;
    let c := ctx w in
    if String.eqb (Method (Request c)) MethodPost then
      let token := Header_Get (Header (Request c)) constant.Token in
      if String.eqb token "" then
        log_ZWarn "header get token error"
          (errs.Wrap errs.ErrArgs ["header must have token"]);;
        GinError (errs.Wrap errs.ErrArgs ["header must have token"]);;
        Abort
      else
        match GetClaimFromToken token (authverify.Secret (config.Secret config)) with
        | None =>
            log_ZWarn "jwt get token error" (errs.Wrap errs.ErrTokenUnknown []);;
            GinError (errs.Wrap errs.ErrTokenUnknown []);;
            Abort
        | Some claims =>
            '(m, err) ← dataBase_GetTokensWithoutError dataBase
                          (UserID claims) (PlatformID claims);
            if bool_decide (err ≠ None) then
              GinError (errs.Wrap errs.ErrTokenNotExist []);;
              Abort
            else if bool_decide (size m = 0%nat) then
              GinError (errs.Wrap errs.ErrTokenNotExist []);;
              Abort
            else
              let accept : State World unit :=
                Set_ constant.OpUserPlatform (PlatformIDToName (PlatformID claims));;
                Set_ constant.OpUserID (UserID claims);;
                c_Next in
              match m !! token with
              | Some v =>
                  if v =? constant.NormalToken then accept
                  else if v =? constant.KickedToken then
                    GinError (errs.Wrap errs.ErrTokenKicked []);;
                    Abort
                  else
                    GinError (errs.Wrap errs.ErrTokenUnknown []);;
                    Abort
              | None =>
                  GinError (errs.Wrap errs.ErrTokenNotExist []);;
                  Abort
              end
        end
    else mret tt.

(** An API handler at the end of a chain: it is entered with the call's
    context, acts on it, and leaves the chain position alone. *)
Definition ApiHandler (name : string) : HandlerFunc :=
  λ _,
    w ← get;
    emit (EvHandler name (ctx w));;
    on_ctx (λ c, set_index (index c) (ApiBody name c)).

(** The handler functions behind the names of a route's chain. *)
Definition handler (rdb : UniversalClient) (config : GlobalConfig) (h : HandlerName)
  : HandlerFunc :=
  match h with
  | Recovery => gin_Recovery
  | CorsHandler => mw_CorsHandler
  | GinParseOperationID => mw_GinParseOperationID
  | ParseToken => GinParseToken rdb config
  | Api name => ApiHandler name
  end.

(** The chain of handler functions the engine runs for a route. *)
Definition chain (rdb : UniversalClient) (config : GlobalConfig) (r : RouteInfo)
  : list HandlerFunc :=
  handler rdb config <$> Handlers r.

(** *** Observations on a call *)

(** The token a call presents. *)
Definition presented_token (c : Context) : string :=
  Header_Get (Header (Request c)) constant.Token.

(** What the token registry answers for the claimed user and platform. *)
Definition store_lookup (rdb : UniversalClient) (cfg : GlobalConfig) (claims : Claims)
  : gmap string Z * option string :=
  GetTokensWithoutError
    (NewAuthDatabase rdb (config.Secret cfg) (TokenPolicy_Expire cfg) cfg)
    (UserID claims) (PlatformID claims).

(** The token check of the middleware, in the words of its contract: the call
    is accepted, for the claims of its token, when a token is presented,
    it decodes, and the registry holds it in the normal state. *)
Definition accepted_claims (rdb : UniversalClient) (cfg : GlobalConfig) (c : Context)
  : option Claims :=
  let token := presented_token c in
  if decide (token = "") then None
  else
    claims ← GetClaimFromToken token (authverify.Secret (config.Secret cfg));
    let '(m, err) := store_lookup rdb cfg claims in
    if decide (err = None ∧ m !! token = Some constant.NormalToken)
    then Some claims else None.

(** A call rejected with error [e]: the error is written, the chain is
    aborted, and nothing else of the context changes. *)
Definition reject_with (e : errs.error) (c : Context) : Context :=
  {| Request := Request c; Keys := Keys c;
     Writer := Writer c ++ [BodyError e]; index := abortIndex |}.

(** A call with the identity of [claims] bound in its context. *)
Definition bind_identity (claims : Claims) (c : Context) : Context :=
  {| Request := Request c;
     Keys := <[constant.OpUserID := UserID claims]>
               (<[constant.OpUserPlatform := PlatformIDToName (PlatformID claims)]>
                  (Keys c));
     Writer := Writer c; index := index c |}.

Definition rejected (e : errs.error) (evs : list Event) (w : World) : World :=
  {| ctx := reject_with e (ctx w); trace := trace w ++ evs |}.

Definition admitted (claims : Claims) (w : World) : World :=
  {| ctx := bind_identity claims (ctx w);
     trace := trace w ++ [EvGetTokens (UserID claims) (PlatformID claims)] |}.

(** The registry lookups among a sequence of events. *)
Definition lookups (tr : list Event) : list (string * Z) :=
  omap (λ e, match e with EvGetTokens u p => Some (u, p) | _ => None end) tr.

(** The API handlers entered among a sequence of events, each with the
    context it was entered with. *)
Definition handler_runs (tr : list Event) : list (string * Context) :=
  omap (λ e, match e with EvHandler n c => Some (n, c) | _ => None end) tr.

(** The engine's loop, serving a call on the route [r] that the call's
    method (and path) selected, stands at the token middleware: the call's
    index is the place of [ParseToken] in the chain of [r]. *)
Definition at_ParseToken (r : RouteInfo) (w : World) : Prop :=
  Method (Request (ctx w)) = RouteMethod r
  ∧ 0 ≤ index (ctx w)
  ∧ Handlers r !! Z.to_nat (index (ctx w)) = Some ParseToken.

(** The events the engine's loop adds to the trace from where it stands. *)
Definition loop_events (fuel : nat) (rdb : UniversalClient) (cfg : GlobalConfig)
    (r : RouteInfo) (w : World) : list Event :=
  drop (length (trace w)) (trace (exec (Next_loop fuel (chain rdb cfg r)) w)).

(** The token of the call in context [c] was checked before any API handler
    among the events [evs] was entered: the token is present, decodes and is
    held as normal in the registry; the handler was preceded by the lookup
    for the user and platform of its claims; and it finds that user and the
    name of that platform bound in its context. *)
Definition token_checked (rdb : UniversalClient) (cfg : GlobalConfig) (c : Context)
    (evs : list Event) : Prop :=
  ∀ i name c',
    evs !! i = Some (EvHandler name c') →
    ∃ claims,
      accepted_claims rdb cfg c = Some claims
      ∧ (∃ j, (j < i)%nat
              ∧ evs !! j = Some (EvGetTokens (UserID claims) (PlatformID claims)))
      ∧ Keys c' !! constant.OpUserID = Some (UserID claims)
      ∧ Keys c' !! constant.OpUserPlatform = Some (PlatformIDToName (PlatformID claims)).

(** The error classes the middleware rejects with. *)
Definition rejection_classes : list errs.CodeError :=
  [errs.ErrArgs; errs.ErrTokenUnknown; errs.ErrTokenKicked; errs.ErrTokenNotExist].
End defs.
End api.

(** ** pkg/authverify/token.go, the functions over token claims *)

Module authverify_claims.
Import config tokenverify.

(** [tokenverify.GetClaimFromToken] returns claims and an error.  Whether it
    decodes a token is [api.GetClaimFromToken]; [GetClaimFromToken_err] is
    the error it returns with a token it does not decode. *)
Class DecodeFailures `{api.Deps} : Type := {
  DecodeError : Type;
  GetClaimFromToken_err : string → jwt.Keyfunc → DecodeError
}.

Section defs.
Context `{DecodeFailures}.

(** [tokenverify.GetClaimFromToken(token, keyFunc)], both results. *)
Definition GetClaimFromToken (token : string) (keyFunc : jwt.Keyfunc)
  : Claims + DecodeError :=
  match api.GetClaimFromToken token keyFunc with
  | Some claims => inl claims
  | None => inr (GetClaimFromToken_err token keyFunc)
  end.

(** The errors these functions return: the decoder's own, or
    [errs.ErrTokenInvalid.Wrap(detail)]. *)
Inductive TokenError : Type :=
| DecodeFailure (err : DecodeError)
| ErrTokenInvalid (detail : string).

(** The dynamic types of a value read from redis; [[]uint8] is a byte
    string. *)
Inductive any : Type :=
| AnyNil
| AnyInt (n : Z)
| AnyString (s : string)
| AnyBytes (b : string).

(** [func ParseRedisInterfaceToken(redisToken any, secret string)]: the type
    assertion [redisToken.([]uint8)] panics on any other dynamic type
    ([None]). *)
Definition ParseRedisInterfaceToken (redisToken : any) (secret : string)
  : option (Claims + DecodeError) :=
  match redisToken with
  | AnyBytes b => Some (GetClaimFromToken b (authverify.Secret secret))
  | _ => None
  end.

(** [func WsVerifyToken(token, userID, secret string, platformID int) error] *)
Definition WsVerifyToken (token userID secret : string) (platformID : Z)
  : option TokenError :=
  match GetClaimFromToken token (authverify.Secret secret) with
  | inr err => Some (DecodeFailure err)
  | inl claim =>
      if negb (String.eqb (UserID claim) userID) then
        Some (ErrTokenInvalid
                ("token uid " +:+ UserID claim +:+ " != userID " +:+ userID))
      else if negb (PlatformID claim =? platformID) then
        Some (ErrTokenInvalid
                ("token platform " +:+ pretty (PlatformID claim)
                   +:+ " != " +:+ pretty platformID))
      else None
  end.
End defs.
End authverify_claims.

(** ** The push RPC server, its other functions *)

Module push_server.
Import config.

(** [pbpush.DelUserPushTokenReq]; the platform is an [int32], widened by
    [int(req.PlatformID)] without change of value. *)
Record DelUserPushTokenReq : Type := mkDelUserPushTokenReq {
  UserID : string;
  PlatformID : Z
}.
Record DelUserPushTokenResp : Type := mkDelUserPushTokenResp { }.

(** [r.pusher.database]: deleting the push-provider token registered for a
    user on a platform. *)
Class PushDatabase : Type := {
  DbError : Type;
  DbState : Type;
  DelFcmToken : string → Z → DbState → option DbError * DbState
}.

Section del.
Context `{PushDatabase}.

Inductive DbEvent : Type :=
| EvDelFcmToken (userID : string) (platformID : Z) (ret : option DbError).

Record DbWorld : Type := mkDbWorld { database : DbState; db_trace : list DbEvent }.

(** [r.pusher.database.DelFcmToken(ctx, userID, platformID)] *)
Definition database_DelFcmToken (userID : string) (platformID : Z)
  : State DbWorld (option DbError) :=
  λ w, let '(err, d) := DelFcmToken userID platformID (database w) in
       (err, {| database := d;
                db_trace := db_trace w ++ [EvDelFcmToken userID platformID err] |}).

(** [func (r *pushServer) DelUserPushToken(ctx, req) (resp, err)] *)
Definition DelUserPushToken (req : DelUserPushTokenReq)
  : State DbWorld (option DelUserPushTokenResp * option DbError) :=
  err ← database_DelFcmToken (UserID req) (PlatformID req);
  match err with
  | Some e => mret (None, Some e)
  | None => mret (Some mkDelUserPushTokenResp, None)
  end.
End del.

(** The constructors [Start] wires together, each a value of its package. *)
Class Wiring : Type := {
  StartError : Type;
  Redis : Type;
  CacheModel : Type;
  OfflinePusher : Type;
  PushDatabaseT : Type;
  GroupRpcClient : Type;
  ConversationRpcClient : Type;
  MessageRpcClient : Type;
  GroupLocalCache : Type;
  ConversationLocalCache : Type;
  PusherT : Type;
  ConsumerT : Type;
  SvcDiscoveryRegistry : Type;
  GrpcServer : Type;
  NewRedis : GlobalConfig → Redis + StartError;
  NewMsgCacheModel : Redis → GlobalConfig → CacheModel;
  NewOfflinePusher : GlobalConfig → CacheModel → OfflinePusher;
  NewPushDatabase : CacheModel → PushDatabaseT;
  NewGroupRpcClient : SvcDiscoveryRegistry → GlobalConfig → GroupRpcClient;
  NewConversationRpcClient : SvcDiscoveryRegistry → GlobalConfig → ConversationRpcClient;
  NewMessageRpcClient : SvcDiscoveryRegistry → GlobalConfig → MessageRpcClient;
  NewGroupLocalCache : GroupRpcClient → Redis → GroupLocalCache;
  NewConversationLocalCache : ConversationRpcClient → Redis → ConversationLocalCache;
  NewPusher : GlobalConfig → SvcDiscoveryRegistry → OfflinePusher → PushDatabaseT →
              GroupLocalCache → ConversationLocalCache →
              ConversationRpcClient → GroupRpcClient → MessageRpcClient → PusherT;
  NewConsumer : GlobalConfig → PusherT → ConsumerT + StartError
}.

Section start.
Context `{Wiring}.

(** [&pushServer{pusher: pusher, config: config}] *)
Record pushServer : Type := mkPushServer {
  pusher : PusherT;
  server_config : GlobalConfig
}.

(** What [Start] does to the outside: it registers the RPC service on the
    gRPC server and starts the consumer. *)
Inductive StartEvent : Type :=
| EvRegisterPushMsgServiceServer (server : GrpcServer) (srv : pushServer)
| EvConsumerStart (consumer : ConsumerT).

(** [func Start(config, client, server) error] *)
Definition Start (config : GlobalConfig) (client : SvcDiscoveryRegistry)
    (server : GrpcServer) : State (list StartEvent) (option StartError) :=
  match NewRedis config with
  | inr err => mret (Some err)
  | inl rdb =>
      let cacheModel := NewMsgCacheModel rdb config in
      let offlinePusher := NewOfflinePusher config cacheModel in
      let database := NewPushDatabase cacheModel in
      let groupRpcClient := NewGroupRpcClient client config in
      let conversationRpcClient := NewConversationRpcClient client config in
      let msgRpcClient := NewMessageRpcClient client config in
      let pusher :=
        NewPusher config client offlinePusher database
          (NewGroupLocalCache groupRpcClient rdb)
          (NewConversationLocalCache conversationRpcClient rdb)
          conversationRpcClient groupRpcClient msgRpcClient in
      modify (λ tr, tr ++ [EvRegisterPushMsgServiceServer server
                             {| pusher := pusher; server_config := config |}]);;
      match NewConsumer config pusher with
      | inr err => mret (Some err)
      | inl consumer =>
          modify (λ tr, tr ++ [EvConsumerStart consumer]);;
          mret None
      end
  end.
End start.
End push_server.

(** ** Sample collaborators and calls *)

Module fixtures.
Import config http gin tokenverify.

(** A pusher that answers from a script, one entry per call. *)
Definition scripted_pusher : push.Pusher := {|
  push.error := string;
  push.errNoOfflinePusher := "no offlinePusher is configured";
  push.PusherState := list (option string);
  push.Push2SuperGroup _ _ st :=
    match st with [] => (None, []) | r :: st' => (r, st') end;
  push.Push2User _ _ st :=
    match st with [] => (None, []) | r :: st' => (r, st') end
|}.

Definition direct_msg (senderSync : bool) : sdkws.MsgData :=
  {| sdkws.SendID := "U1"; sdkws.RecvID := "U2"; sdkws.GroupID := "";
     sdkws.SessionType := constant.SingleChatType;
     sdkws.Options := {[ constant.IsSenderSync := senderSync ]} |}.

(** A direct message whose options do not hold the sender-sync switch. *)
Definition plain_msg : sdkws.MsgData :=
  {| sdkws.SendID := "U1"; sdkws.RecvID := "U2"; sdkws.GroupID := "";
     sdkws.SessionType := constant.SingleChatType;
     sdkws.Options := ∅ |}.


Definition push_world (script : list (option string)) : @push.World scripted_pusher :=
  @push.mkWorld scripted_pusher script [].

(** A token registry in memory ([None]: the store cannot be reached), two
    tokens of user U9 on platform 2 and one of user U7 that decode, and API
    handlers that write their own name. *)
Definition registry_deps : api.Deps := {|
  api.UniversalClient := option (gmap (string * Z) (gmap string Z));
  api.NewAuthDatabase rdb _ _ _ :=
    {| api.GetTokensWithoutError u p :=
         match rdb with
         | None => (∅, Some "redis: connection refused")
         | Some reg => (default ∅ (reg !! (u, p)), None)
         end |};
  api.GetClaimFromToken tok _ :=
    if String.eqb tok "T0" then Some (mkClaims "U9" 2)
    else if String.eqb tok "T1" then Some (mkClaims "U9" 2)
    else if String.eqb tok "T7" then Some (mkClaims "U7" 1)
    else None;
  api.PlatformIDToName p :=
    if p =? 1 then "IOS" else if p =? 2 then "Android" else "";
  api.CanonicalMIMEHeaderKey k := if String.eqb k "token" then "Token" else k;
  api.ApiBody name c :=
    {| Request := Request c; Keys := Keys c;
       Writer := Writer c ++ [BodyData name]; index := index c |}
|}.

Definition cfg0 : GlobalConfig :=
  {| Secret := "openIM123"; TokenPolicy_Expire := 90;
     Manager_UserID := ["openIM123456"]; IMAdmin_UserID := ["imAdmin"] |}.

(** U9 logged in again on platform 2: T1 is current, T0 was kicked. *)
Definition registry0 : option (gmap (string * Z) (gmap string Z)) :=
  Some {[ ("U9", 2) := {[ "T0" := constant.KickedToken; "T1" := constant.NormalToken ]} ]}.

Definition call (method : string) (header : gmap string (list string))
  : gin.World api.Event :=
  {| ctx := {| Request := {| Method := method; Header := header |};
               Keys := ∅; Writer := []; index := -1 |};
     trace := [] |}.

Definition post_with (token : string) : gin.World api.Event :=
  call MethodPost {[ "Token" := [token] ]}.

(** Stand-ins for the engine-wide handlers that pass every call on. *)
Definition passing_middleware : api.EngineMiddleware := {|
  api.gin_Recovery c_Next := c_Next;
  api.mw_CorsHandler c_Next := c_Next;
  api.mw_GinParseOperationID c_Next := c_Next
|}.

(** A call as the engine's loop has it at place [i] of a chain. *)
Definition arrived (i : Z) (w : gin.World api.Event) : gin.World api.Event :=
  {| ctx := gin.set_index i (ctx w); trace := trace w |}.

Definition route_update_user_info : api.RouteInfo :=
  {| api.RouteMethod := MethodPost; api.Path := "/user/update_user_info";
     api.Handlers := [api.Recovery; api.CorsHandler; api.GinParseOperationID;
                      api.ParseToken; api.Api "u.UpdateUserInfo"] |}.

Definition route_prometheus : api.RouteInfo :=
  {| api.RouteMethod := MethodGet; api.Path := "/third/prometheus";
     api.Handlers := [api.Recovery; api.CorsHandler; api.GinParseOperationID;
                      api.ParseToken; api.Api "t.GetPrometheus"] |}.

(** Admin checks over a context that is the operating user's ID. *)
Definition plain_tools : authverify.Tools := {|
  authverify.Ctx := string;
  authverify.GetOpUserID ctx := ctx;
  authverify.IsContain target l := bool_decide (target ∈ l)
|}.
End fixtures.

(** ** Sample collaborators for the remaining functions *)

Module more_fixtures.
Import config tokenverify.

(** The sample decoder reports a token it does not decode by quoting it. *)
Definition quoting_decoder : @authverify_claims.DecodeFailures fixtures.registry_deps := {|
  authverify_claims.DecodeError := string;
  authverify_claims.GetClaimFromToken_err tok _ := "token malformed: " +:+ tok
|}.

(** User U7 holds token T7 on platform 1, and it has expired. *)
Definition registry_expired : option (gmap (string * Z) (gmap string Z)) :=
  Some {[ ("U7", 1) := {[ "T7" := constant.ExpiredToken ]} ]}.

(** A table of push-provider tokens; deleting a missing entry is an error. *)
Definition fcm_table : push_server.PushDatabase := {|
  push_server.DbError := string;
  push_server.DbState := gmap (string * Z) string;
  push_server.DelFcmToken u p tbl :=
    match tbl !! (u, p) with
    | Some _ => (None, delete (u, p) tbl)
    | None => (Some "redis: nil", tbl)
    end
|}.

(** Wiring in which every component is its own description; redis cannot be
    reached with an empty secret, and the consumer cannot be created with a
    negative token expiry. *)
Definition plain_wiring : push_server.Wiring := {|
  push_server.StartError := string;
  push_server.Redis := unit;
  push_server.CacheModel := unit;
  push_server.OfflinePusher := unit;
  push_server.PushDatabaseT := unit;
  push_server.GroupRpcClient := unit;
  push_server.ConversationRpcClient := unit;
  push_server.MessageRpcClient := unit;
  push_server.GroupLocalCache := unit;
  push_server.ConversationLocalCache := unit;
  push_server.PusherT := string;
  push_server.ConsumerT := string;
  push_server.SvcDiscoveryRegistry := string;
  push_server.GrpcServer := string;
  push_server.NewRedis cfg :=
    if String.eqb (Secret cfg) "" then inr "redis: connection refused" else inl tt;
  push_server.NewMsgCacheModel _ _ := tt;
  push_server.NewOfflinePusher _ _ := tt;
  push_server.NewPushDatabase _ := tt;
  push_server.NewGroupRpcClient _ _ := tt;
  push_server.NewConversationRpcClient _ _ := tt;
  push_server.NewMessageRpcClient _ _ := tt;
  push_server.NewGroupLocalCache _ _ := tt;
  push_server.NewConversationLocalCache _ _ := tt;
  push_server.NewPusher _ client _ _ _ _ _ _ _ := "pusher of " +:+ client;
  push_server.NewConsumer cfg p :=
    if TokenPolicy_Expire cfg <? 0 then inr "kafka: no brokers"
    else inl ("consumer on " +:+ p)
|}.

(** A deployment with no manager configured. *)
Definition cfg_no_manager : GlobalConfig :=
  {| Secret := "openIM123"; TokenPolicy_Expire := 90;
     Manager_UserID := []; IMAdmin_UserID := ["imAdmin"] |}.

End more_fixtures.

(** * Properties *)

Section authverify_properties.
Import config authverify.
Context `{Tools}.

(** C10: [CheckAdmin] and [CheckIMAdmin] accept exactly the same callers,
    namely those for which [IsAppManagerUid] is true; when they reject, both
    return an error of the no-permission class (with different messages). *)
Theorem CheckAdmin_CheckIMAdmin_IsAppManagerUid (ctx : Ctx) (cfg : GlobalConfig) :
  (CheckAdmin ctx cfg = None ↔ CheckIMAdmin ctx cfg = None)
  ∧ (CheckAdmin ctx cfg = None ↔ IsAppManagerUid ctx cfg = true)
  ∧ (CheckIMAdmin ctx cfg = None ↔ IsAppManagerUid ctx cfg = true)
  ∧ (IsAppManagerUid ctx cfg = false →
     errs.Code <$> CheckAdmin ctx cfg = Some errs.ErrNoPermission
     ∧ errs.Code <$> CheckIMAdmin ctx cfg = Some errs.ErrNoPermission).
Proof.
  unfold CheckAdmin, CheckIMAdmin, IsAppManagerUid.
  destruct (0 <? len (Manager_UserID cfg));
    destruct (IsContain (GetOpUserID ctx) (Manager_UserID cfg));
    destruct (IsContain (GetOpUserID ctx) (IMAdmin_UserID cfg));
    cbn; repeat split; intros; congruence.
Qed.
End authverify_properties.

Section push_properties.
Import sdkws pbpush push.
Context `{Pusher}.

(** One run of [PushMsg] on a request that carries an event: the call the
    session type selects goes to the pusher, and the pusher's answer decides
    how the run ends. *)
Lemma PushMsg_run (pbData : PushMsgReq) (msg : sdkws.MsgData) (w : World) :
  MsgData pbData = Some msg →
  let call := if SessionType msg =? constant.SuperGroupChatType
              then CallPush2SuperGroup (GroupID msg) msg
              else CallPush2User (direct_recipients msg) msg in
  let answer := pusher_answer call (pusher w) in
  PushMsg pbData w =
    match answer.1 with
    | None =>
        (Returns (Some mkPushMsgResp, None),
         {| pusher := answer.2; trace := trace w ++ [EvPusher call None] |})
    | Some e =>
        if decide (e ≠ errNoOfflinePusher)
        then (Returns (None, Some e),
              {| pusher := answer.2; trace := trace w ++ [EvPusher call (Some e)] |})
        else (Returns (Some mkPushMsgResp, None),
              {| pusher := answer.2;
                 trace := trace w ++ [EvPusher call (Some e);
                                      EvZWarn "offline push failed" e pbData] |})
    end.
Proof.
  intros Hmsg; cbv zeta.
  unfold PushMsg, direct_recipients, mbind, State_bind, pusher_Push2SuperGroup,
    pusher_Push2User, log_ZWarn, emit, modify.
  rewrite Hmsg.
  destruct (SessionType msg =? constant.SuperGroupChatType); cbn.
  - destruct (Push2SuperGroup _ _ _) as [[e|] p]; cbn; [|reflexivity].
    destruct (decide (e ≠ errNoOfflinePusher)); cbn; [reflexivity|].
    by rewrite <- app_assoc.
  - destruct (utils.GetSwitchFromOptions _ _); cbn;
      (destruct (Push2User _ _ _) as [[e|] p]; cbn; [|reflexivity]);
      (destruct (decide (e ≠ errNoOfflinePusher)); cbn; [reflexivity|]);
      by rewrite <- app_assoc.
Qed.

(** The one pusher call of a run. *)
Lemma PushMsg_calls (pbData : PushMsgReq) (msg : sdkws.MsgData) (w : World) :
  MsgData pbData = Some msg →
  (pusher_calls (PushMsg_events pbData w)).*1
  = [if SessionType msg =? constant.SuperGroupChatType
     then CallPush2SuperGroup (GroupID msg) msg
     else CallPush2User (direct_recipients msg) msg].
Proof.
  intros Hmsg. unfold PushMsg_events, exec.
  rewrite (PushMsg_run pbData msg w Hmsg); cbv zeta.
  destruct (pusher_answer _ _).1 as [e|];
    [destruct (decide (e ≠ errNoOfflinePusher))|];
    cbn; rewrite drop_app_length; reflexivity.
Qed.


(** C3, as amended: for an event that is not a super-group event, the list
    handed to [Push2User] is [[RecvID]] when the event's options hold the
    sender-sync switch with the value false, and [[RecvID; SendID]] in every
    other case: when they hold it with the value true, and also when they do
    not hold it, the switch being on by default. *)
Theorem PushMsg_direct_recipients (pbData : PushMsgReq) (msg : sdkws.MsgData) (w : World) :
  MsgData pbData = Some msg →
  SessionType msg ≠ constant.SuperGroupChatType →
  (Options msg !! constant.IsSenderSync = Some false →
   (pusher_calls (PushMsg_events pbData w)).*1 = [CallPush2User [RecvID msg] msg])
  ∧ (Options msg !! constant.IsSenderSync ≠ Some false →
     (pusher_calls (PushMsg_events pbData w)).*1
       = [CallPush2User [RecvID msg; SendID msg] msg]).
Proof.
  intros Hmsg Hty. rewrite (PushMsg_calls pbData msg w Hmsg).
  unfold direct_recipients, utils.GetSwitchFromOptions.
  destruct (Z.eqb_spec (SessionType msg) constant.SuperGroupChatType); [done|].
  destruct (Options msg !! constant.IsSenderSync) as [[|]|]; split; intros; done.
Qed.

(** C2: [PushMsg] makes one pusher call, the one its dispatch selects, and
    what the pusher answers to it decides the result.  No error: a response
    and no error.  The sentinel [errNoOfflinePusher]: still a response and no
    error, and one warning is logged.  Any other error: no response, and
    that error is returned. *)
Theorem PushMsg_error_policy (pbData : PushMsgReq) (msg : sdkws.MsgData) (w : World) :
  MsgData pbData = Some msg →
  ∃ call,
    (call = CallPush2SuperGroup (GroupID msg) msg
     ∨ call = CallPush2User (direct_recipients msg) msg)
    ∧ pusher_calls (PushMsg_events pbData w) = [(call, (pusher_answer call (pusher w)).1)]
    ∧ pusher (exec (PushMsg pbData) w) = (pusher_answer call (pusher w)).2
    ∧ ((pusher_answer call (pusher w)).1 = None →
       eval (PushMsg pbData) w = Returns (Some mkPushMsgResp, None)
       ∧ log_records (PushMsg_events pbData w) = [])
    ∧ ((pusher_answer call (pusher w)).1 = Some errNoOfflinePusher →
       eval (PushMsg pbData) w = Returns (Some mkPushMsgResp, None)
       ∧ log_records (PushMsg_events pbData w)
         = [("offline push failed", errNoOfflinePusher, pbData)])
    ∧ (∀ e, (pusher_answer call (pusher w)).1 = Some e → e ≠ errNoOfflinePusher →
       eval (PushMsg pbData) w = Returns (None, Some e)
       ∧ log_records (PushMsg_events pbData w) = []).
Proof.
  intros Hmsg.
  pose proof (PushMsg_run pbData msg w Hmsg) as Hrun; cbv zeta in Hrun.
  unfold PushMsg_events, exec, eval. rewrite Hrun. clear Hrun.
  exists (if SessionType msg =? constant.SuperGroupChatType
          then CallPush2SuperGroup (GroupID msg) msg
          else CallPush2User (direct_recipients msg) msg).
  split.
  { destruct (SessionType msg =? constant.SuperGroupChatType); [by left | by right]. }
  destruct (pusher_answer _ _).1 as [e|];
    [destruct (decide (e ≠ errNoOfflinePusher)) as [Hne|Hne]|];
    cbn; rewrite drop_app_length; (split; [reflexivity|]); (split; [reflexivity|]);
    repeat split; intros; simplify_eq; try done.
  all: apply dec_stable in Hne; subst; done.
Qed.
End push_properties.

Section api_properties.
Import config http gin tokenverify api.
Context `{Deps}.

Abbreviation World := (gin.World Event).

(** Runs the middleware down to the tests it makes. *)
Ltac run_mw :=
  unfold GinParseToken, dataBase_GetTokensWithoutError, log_ZWarn, GinError,
    Abort, Set_, write, emit, on_ctx, modify, get, exec, eval,
    mbind, mret, State_bind, State_ret;
  cbn.

Lemma accepted_claims_Some rdb cfg c claims :
  accepted_claims rdb cfg c = Some claims ↔
  presented_token c ≠ ""
  ∧ GetClaimFromToken (presented_token c) (authverify.Secret (config.Secret cfg))
    = Some claims
  ∧ ∃ m, store_lookup rdb cfg claims = (m, None)
         ∧ m !! presented_token c = Some constant.NormalToken.
Proof.
  unfold accepted_claims.
  destruct (decide (presented_token c = "")) as [Ht|Ht].
  { split; [done | intros [? _]; done]. }
  destruct (GetClaimFromToken _ _) as [cl|] eqn:Hd; cbn.
  2: { split; [done | intros (_ & ? & _); done]. }
  destruct (store_lookup rdb cfg cl) as [m err] eqn:Hl.
  destruct (decide _) as [[He Hm]|Hn].
  - split.
    + intros [= <-]. subst err. rewrite Hl. eauto.
    + intros (_ & [= <-] & _). done.
  - split; [done|]. intros (_ & [= <-] & m' & Hl' & Hm').
    rewrite Hl in Hl'. simplify_eq. destruct Hn; done.
Qed.

(** For a method other than POST the middleware returns at once. *)
Lemma GinParseToken_other_method rdb cfg (c_Next : State World unit) (w : World) :
  Method (Request (ctx w)) ≠ MethodPost →
  GinParseToken rdb cfg c_Next w = (tt, w).
Proof.
  intros Hm. run_mw.
  destruct (String.eqb_spec (Method (Request (ctx w))) MethodPost); done.
Qed.

(** The middleware on a POST call without a token. *)
Lemma GinParseToken_no_token rdb cfg (c_Next : State World unit) (w : World) :
  Method (Request (ctx w)) = MethodPost →
  presented_token (ctx w) = "" →
  GinParseToken rdb cfg c_Next w
    = (tt, rejected (errs.Wrap errs.ErrArgs ["header must have token"])
             [EvZWarn "header get token error"
                (errs.Wrap errs.ErrArgs ["header must have token"])] w).
Proof.
  unfold presented_token. intros Hm Ht. run_mw. rewrite Hm, Ht. reflexivity.
Qed.

(** The middleware on a POST call whose token does not decode. *)
Lemma GinParseToken_undecoded rdb cfg (c_Next : State World unit) (w : World) :
  Method (Request (ctx w)) = MethodPost →
  presented_token (ctx w) ≠ "" →
  GetClaimFromToken (presented_token (ctx w)) (authverify.Secret (config.Secret cfg))
    = None →
  GinParseToken rdb cfg c_Next w
    = (tt, rejected (errs.Wrap errs.ErrTokenUnknown [])
             [EvZWarn "jwt get token error" (errs.Wrap errs.ErrTokenUnknown [])] w).
Proof.
  unfold presented_token. intros Hm Ht Hd. run_mw. rewrite Hm. cbn.
  destruct (String.eqb_spec (Header_Get (Header (Request (ctx w))) constant.Token) "");
    [done|].
  rewrite Hd. reflexivity.
Qed.

(** C5: a POST call with no token is rejected with the argument-error
    class and aborted.  The outcome is the same whatever the registry
    holds, and the registry is not consulted: the trace gains the warning
    and nothing else. *)
Theorem GinParseToken_missing_token
    (rdb : UniversalClient) (cfg : GlobalConfig) (c_Next : State World unit) (w : World) :
  Method (Request (ctx w)) = MethodPost →
  presented_token (ctx w) = "" →
  let e := errs.Wrap errs.ErrArgs ["header must have token"] in
  GinParseToken rdb cfg c_Next w
    = (tt, rejected e [EvZWarn "header get token error" e] w)
  ∧ IsAborted (ctx (exec (GinParseToken rdb cfg c_Next) w)) = true
  ∧ lookups (trace (exec (GinParseToken rdb cfg c_Next) w)) = lookups (trace w)
  ∧ ∀ rdb', GinParseToken rdb' cfg c_Next w = GinParseToken rdb cfg c_Next w.
Proof.
  intros Hm Ht; cbv zeta.
  pose proof (λ r, GinParseToken_no_token r cfg c_Next w Hm Ht) as Hrun.
  split; [apply Hrun|]. unfold exec. rewrite Hrun. cbn.
  split; [reflexivity|]. split.
  - unfold lookups. rewrite omap_app. cbn. apply app_nil_r.
  - intros r. rewrite Hrun. reflexivity.
Qed.

(** C8: a POST call whose token does not decode is rejected with the
    unrecognized-token class and aborted, whatever the registry holds and
    without consulting it. *)
Theorem GinParseToken_undecodable_token
    (rdb : UniversalClient) (cfg : GlobalConfig) (c_Next : State World unit) (w : World) :
  Method (Request (ctx w)) = MethodPost →
  presented_token (ctx w) ≠ "" →
  GetClaimFromToken (presented_token (ctx w)) (authverify.Secret (config.Secret cfg))
    = None →
  let e := errs.Wrap errs.ErrTokenUnknown [] in
  GinParseToken rdb cfg c_Next w
    = (tt, rejected e [EvZWarn "jwt get token error" e] w)
  ∧ IsAborted (ctx (exec (GinParseToken rdb cfg c_Next) w)) = true
  ∧ lookups (trace (exec (GinParseToken rdb cfg c_Next) w)) = lookups (trace w)
  ∧ ∀ rdb', GinParseToken rdb' cfg c_Next w = GinParseToken rdb cfg c_Next w.
Proof.
  intros Hm Ht Hd; cbv zeta.
  pose proof (λ r, GinParseToken_undecoded r cfg c_Next w Hm Ht Hd) as Hrun.
  split; [apply Hrun|]. unfold exec. rewrite Hrun. cbn.
  split; [reflexivity|]. split.
  - unfold lookups. rewrite omap_app. cbn. apply app_nil_r.
  - intros r. rewrite Hrun. reflexivity.
Qed.

(** The middleware on a POST call whose token decodes, by what the
    registry answers. *)
Lemma GinParseToken_decoded rdb cfg (c_Next : State World unit) (w : World) claims m err :
  Method (Request (ctx w)) = MethodPost →
  presented_token (ctx w) ≠ "" →
  GetClaimFromToken (presented_token (ctx w)) (authverify.Secret (config.Secret cfg))
    = Some claims →
  store_lookup rdb cfg claims = (m, err) →
  let seen := [EvGetTokens (UserID claims) (PlatformID claims)] in
  GinParseToken rdb cfg c_Next w =
    if decide (err ≠ None)
    then (tt, rejected (errs.Wrap errs.ErrTokenNotExist []) seen w)
    else match m !! presented_token (ctx w) with
         | None => (tt, rejected (errs.Wrap errs.ErrTokenNotExist []) seen w)
         | Some v =>
             if decide (v = constant.NormalToken) then c_Next (admitted claims w)
             else if decide (v = constant.KickedToken)
                  then (tt, rejected (errs.Wrap errs.ErrTokenKicked []) seen w)
                  else (tt, rejected (errs.Wrap errs.ErrTokenUnknown []) seen w)
         end.
Proof.
  unfold presented_token, store_lookup. intros Hm Ht Hd Hl; cbv zeta. run_mw.
  rewrite Hm. cbn.
  destruct (String.eqb_spec (Header_Get (Header (Request (ctx w))) constant.Token) "");
    [done|].
  rewrite Hd, Hl. cbn.
  case_bool_decide; destruct (decide (err ≠ None)); try done.
  case_bool_decide as Hsz.
  { apply map_size_empty_iff in Hsz. subst m. rewrite lookup_empty. reflexivity. }
  destruct (m !! _) as [v|]; [|reflexivity].
  destruct (Z.eqb_spec v constant.NormalToken), (decide (v = constant.NormalToken));
    try done.
  destruct (Z.eqb_spec v constant.KickedToken), (decide (v = constant.KickedToken));
    done.
Qed.

(** C1: on a POST call whose token is present and decodes, the token's
    state in the registry decides.  No entry at all, or none for this
    token: rejected as token-does-not-exist.  Held as kicked: rejected as
    token-kicked, a class other than token-does-not-exist.  Held as normal:
    the identity is bound and the rest of the chain runs.  (The last two
    read the state off a lookup that returned without error.) *)
Theorem GinParseToken_token_state
    (rdb : UniversalClient) (cfg : GlobalConfig) (c_Next : State World unit) (w : World)
    (claims : Claims) (m : gmap string Z) (err : option string) :
  Method (Request (ctx w)) = MethodPost →
  presented_token (ctx w) ≠ "" →
  GetClaimFromToken (presented_token (ctx w)) (authverify.Secret (config.Secret cfg))
    = Some claims →
  store_lookup rdb cfg claims = (m, err) →
  let seen := [EvGetTokens (UserID claims) (PlatformID claims)] in
  (size m = 0%nat ∨ m !! presented_token (ctx w) = None →
   GinParseToken rdb cfg c_Next w
     = (tt, rejected (errs.Wrap errs.ErrTokenNotExist []) seen w))
  ∧ (err = None → m !! presented_token (ctx w) = Some constant.KickedToken →
     GinParseToken rdb cfg c_Next w
       = (tt, rejected (errs.Wrap errs.ErrTokenKicked []) seen w)
     ∧ errs.Code (errs.Wrap errs.ErrTokenKicked []) ≠ errs.ErrTokenNotExist)
  ∧ (err = None → m !! presented_token (ctx w) = Some constant.NormalToken →
     GinParseToken rdb cfg c_Next w = c_Next (admitted claims w)).
Proof.
  intros Hm Ht Hd Hl; cbv zeta.
  rewrite (GinParseToken_decoded _ _ _ _ _ _ _ Hm Ht Hd Hl).
  split; [|split].
  - intros Habs. destruct (decide (err ≠ None)); [reflexivity|].
    destruct Habs as [Hsz|Hno].
    + apply map_size_empty_iff in Hsz. subst m. rewrite lookup_empty. reflexivity.
    + rewrite Hno. reflexivity.
  - intros -> ->. destruct (decide (None ≠ None)) as [?|_]; [done|].
    split; [reflexivity | done].
  - intros -> ->. destruct (decide (None ≠ None)) as [?|_]; [done|]. reflexivity.
Qed.

(** X8: a token held in a state that is neither normal nor kicked (invalid,
    expired) is rejected as an unrecognized token. *)
Lemma GinParseToken_other_state
    (rdb : UniversalClient) (cfg : GlobalConfig) (c_Next : State World unit) (w : World)
    (claims : Claims) (m : gmap string Z) (v : Z) :
  Method (Request (ctx w)) = MethodPost →
  presented_token (ctx w) ≠ "" →
  GetClaimFromToken (presented_token (ctx w)) (authverify.Secret (config.Secret cfg))
    = Some claims →
  store_lookup rdb cfg claims = (m, None) →
  m !! presented_token (ctx w) = Some v →
  v ≠ constant.NormalToken → v ≠ constant.KickedToken →
  GinParseToken rdb cfg c_Next w
    = (tt, rejected (errs.Wrap errs.ErrTokenUnknown [])
             [EvGetTokens (UserID claims) (PlatformID claims)] w).
Proof.
  intros Hm Ht Hd Hl Hv Hn Hk.
  rewrite (GinParseToken_decoded _ _ _ _ _ _ _ Hm Ht Hd Hl), Hv.
  destruct (decide (None ≠ None)) as [?|_]; [done|].
  do 2 (destruct (decide _); [done|]). reflexivity.
Qed.

(** C9: when the registry lookup itself fails, the POST call is rejected
    as token-does-not-exist, and the outcome is the very one of a lookup
    that succeeds without an entry for the token. *)
Theorem GinParseToken_store_failure
    (rdb : UniversalClient) (cfg : GlobalConfig) (c_Next : State World unit) (w : World)
    (claims : Claims) (m : gmap string Z) (err : string) :
  Method (Request (ctx w)) = MethodPost →
  presented_token (ctx w) ≠ "" →
  GetClaimFromToken (presented_token (ctx w)) (authverify.Secret (config.Secret cfg))
    = Some claims →
  store_lookup rdb cfg claims = (m, Some err) →
  GinParseToken rdb cfg c_Next w
    = (tt, rejected (errs.Wrap errs.ErrTokenNotExist [])
             [EvGetTokens (UserID claims) (PlatformID claims)] w)
  ∧ ∀ rdb' m',
      store_lookup rdb' cfg claims = (m', None) →
      m' !! presented_token (ctx w) = None →
      GinParseToken rdb' cfg c_Next w = GinParseToken rdb cfg c_Next w.
Proof.
  intros Hm Ht Hd Hl.
  rewrite (GinParseToken_decoded _ _ _ _ _ _ _ Hm Ht Hd Hl).
  destruct (decide (Some err ≠ None)) as [_|Hn]; [|destruct Hn; done].
  split; [reflexivity|]. intros rdb' m' Hl' Hno.
  rewrite (GinParseToken_decoded _ _ _ _ _ _ _ Hm Ht Hd Hl').
  destruct (decide (None ≠ None)) as [?|_]; [done|].
  rewrite Hno. reflexivity.
Qed.

(** The middleware on a POST call: it hands an accepted call, with the
    identity bound, to the rest of the chain, and rejects every other call
    with an error of one of its four classes without running the rest. *)
Lemma GinParseToken_POST rdb cfg (w : World) :
  Method (Request (ctx w)) = MethodPost →
  match accepted_claims rdb cfg (ctx w) with
  | Some claims =>
      ∀ c_Next, GinParseToken rdb cfg c_Next w = c_Next (admitted claims w)
  | None =>
      ∃ e evs, errs.Code e ∈ rejection_classes
               ∧ handler_runs evs = []
               ∧ ∀ c_Next, GinParseToken rdb cfg c_Next w = (tt, rejected e evs w)
  end.
Proof.
  intros Hm.
  destruct (accepted_claims rdb cfg (ctx w)) as [claims|] eqn:Hacc.
  { apply accepted_claims_Some in Hacc as (Ht & Hd & m & Hl & Hs). intros c_Next.
    rewrite (GinParseToken_decoded _ _ _ _ _ _ _ Hm Ht Hd Hl).
    destruct (decide (None ≠ None)) as [?|_]; [done|].
    rewrite Hs. destruct (decide _); done. }
  destruct (decide (presented_token (ctx w) = "")) as [Ht|Ht].
  { eexists _, _. split; [|split]; [| |intros c; by apply GinParseToken_no_token].
    - unfold rejection_classes; cbn; set_solver.
    - reflexivity. }
  destruct (GetClaimFromToken (presented_token (ctx w))
              (authverify.Secret (config.Secret cfg))) as [claims|] eqn:Hd.
  2: { eexists _, _. split; [|split]; [| |intros c; by apply GinParseToken_undecoded].
       - unfold rejection_classes; cbn; set_solver.
       - reflexivity. }
  destruct (store_lookup rdb cfg claims) as [m err] eqn:Hl.
  pose proof (λ c, GinParseToken_decoded rdb cfg c w claims m err Hm Ht Hd Hl) as Hrun.
  cbv zeta in Hrun.
  assert (Hnot : ¬ (err = None ∧ m !! presented_token (ctx w) = Some constant.NormalToken)).
  { intros [-> Hs].
    assert (accepted_claims rdb cfg (ctx w) = Some claims) as Hyes
        by (apply accepted_claims_Some; eauto).
    congruence. }
  destruct (decide (err ≠ None)) as [He|He].
  { eexists _, _. split; [|split]; [| |exact Hrun].
    - unfold rejection_classes; cbn; set_solver.
    - reflexivity. }
  apply dec_stable in He.
  destruct (m !! presented_token (ctx w)) as [v|].
  2: { eexists _, _. split; [|split]; [| |exact Hrun].
       - unfold rejection_classes; cbn; set_solver.
       - reflexivity. }
  destruct (decide (v = constant.NormalToken)) as [->|_]; [destruct Hnot; done|].
  destruct (decide (v = constant.KickedToken)).
  - eexists _, _. split; [|split]; [| |exact Hrun].
    + unfold rejection_classes; cbn; set_solver.
    + reflexivity.
  - eexists _, _. split; [|split]; [| |exact Hrun].
    + unfold rejection_classes; cbn; set_solver.
    + reflexivity.
Qed.

(** *** The engine's loop at the token middleware of a gated route *)

Context `{EngineMiddleware}.

Lemma Next_loop_done n (hs : list (gin.HandlerFunc Event)) (w : World) :
  ¬ (0 ≤ index (ctx w) < Z.of_nat (length hs)) →
  Next_loop n hs w = (tt, w).
Proof. intros Hi. destruct n; cbn; [done|]. by rewrite bool_decide_false. Qed.

Lemma Next_loop_step n (hs : list (gin.HandlerFunc Event)) (w : World) h :
  0 ≤ index (ctx w) < Z.of_nat (length hs) →
  hs !! Z.to_nat (index (ctx w)) = Some h →
  Next_loop (S n) hs w
    = (h (index_incr;; Next_loop n hs);; index_incr;; Next_loop n hs) w.
Proof. intros Hi Hh. cbn. rewrite bool_decide_true by done. by rewrite Hh. Qed.

Lemma State_bind_run {S A B} (m : State S A) (f : A → State S B) (s : S) :
  (m ≫= f) s = f (m s).1 (m s).2.
Proof. unfold mbind, State_bind. by destruct (m s). Qed.

#[local] Arguments Next_loop : simpl never.

(** Every gated route of the router has the three engine-wide handlers, then
    the token middleware, then one API handler. *)
Lemma gated_route_chain (r : RouteInfo) :
  r ∈ newGinRouter → gated r = true →
  ∃ name, Handlers r = [Recovery; CorsHandler; GinParseOperationID; ParseToken; Api name].
Proof.
  assert (Hall : forallb (λ r, implb (gated r) (bool_decide (is_Some (gated_chain_name r))))
                   newGinRouter = true) by (vm_compute; reflexivity).
  intros Hin Hg. rewrite forallb_forall in Hall.
  apply list_elem_of_In, Hall in Hin. rewrite Hg in Hin. cbn in Hin.
  apply bool_decide_eq_true in Hin as [name Hn]. exists name.
  unfold gated_chain_name in Hn.
  repeat match type of Hn with
    | match ?l with [] => _ | _ :: _ => _ end = _ => destruct l; try done
    | match ?h with Recovery => _ | _ => _ end = _ => destruct h; try done
    end.
  by simplify_eq.
Qed.

(** On such a chain the token middleware stands at place 3. *)
Lemma at_ParseToken_place (r : RouteInfo) (w : World) name :
  Handlers r = [Recovery; CorsHandler; GinParseOperationID; ParseToken; Api name] →
  at_ParseToken r w → index (ctx w) = 3.
Proof.
  intros Hch (_ & Hpos & Hat). rewrite Hch in Hat.
  destruct (Z.to_nat (index (ctx w))) as [|[|[|[|[|n]]]]] eqn:Hn; simplify_eq/=.
  lia.
Qed.

(** The loop at the token middleware of a gated chain, on a POST call, with
    any fuel from two on: an accepted call enters the API handler with the
    identity bound; any other call is rejected and the loop ends. *)
Lemma gated_loop_POST rdb cfg name (w : World) :
  index (ctx w) = 3 →
  Method (Request (ctx w)) = MethodPost →
  let hs := handler rdb cfg
              <$> [Recovery; CorsHandler; GinParseOperationID; ParseToken; Api name] in
  match accepted_claims rdb cfg (ctx w) with
  | Some claims =>
      let c1 := set_index 4 (bind_identity claims (ctx w)) in
      ∀ k, Next_loop (S (S k)) hs w
           = (tt, {| ctx := set_index 6 (ApiBody name c1);
                     trace := trace w
                                ++ [EvGetTokens (UserID claims) (PlatformID claims);
                                    EvHandler name c1] |})
  | None =>
      ∃ e evs, errs.Code e ∈ rejection_classes
               ∧ handler_runs evs = []
               ∧ (∀ c_Next, GinParseToken rdb cfg c_Next w = (tt, rejected e evs w))
               ∧ ∀ k, Next_loop (S (S k)) hs w
                      = (tt, {| ctx := set_index 64 (reject_with e (ctx w));
                                trace := trace w ++ evs |})
  end.
Proof.
  intros Hi Hm hs.
  pose proof (GinParseToken_POST rdb cfg w Hm) as Hmw.
  destruct w as [[req keys wr idx] tr]. cbn in Hi, Hm. subst idx.
  set (w := {| ctx := {| Request := req; Keys := keys; Writer := wr; index := 3 |};
               trace := tr |}) in *.
  assert (Hstart : ∀ k, Next_loop (S (S k)) hs w
                        = (GinParseToken rdb cfg (index_incr;; Next_loop (S k) hs);;
                           index_incr;; Next_loop (S k) hs) w).
  { intros k. by apply Next_loop_step. }
  destruct (accepted_claims rdb cfg (ctx w)) as [claims|].
  - intros c1 k. rewrite Hstart, State_bind_run, Hmw.
    set (w1 := {| ctx := c1;
                  trace := tr ++ [EvGetTokens (UserID claims) (PlatformID claims)] |}).
    assert (Hin : (index_incr;; Next_loop (S k) hs) (admitted claims w)
                  = Next_loop (S k) hs w1) by reflexivity.
    rewrite Hin.
    rewrite (Next_loop_step _ hs w1 (ApiHandler name)) by (cbn; done || lia).
    set (w2 := {| ctx := set_index 5 (ApiBody name c1);
                  trace := trace w1 ++ [EvHandler name c1] |}).
    assert (Hapi : (ApiHandler name (index_incr;; Next_loop k hs);;
                    index_incr;; Next_loop k hs) w1
                   = Next_loop k hs w2) by reflexivity.
    rewrite Hapi, Next_loop_done by (cbn; lia). cbn [snd].
    set (w3 := {| ctx := set_index 6 (ApiBody name c1); trace := trace w2 |}).
    assert (Hout : (index_incr;; Next_loop (S k) hs) w2 = Next_loop (S k) hs w3)
      by reflexivity.
    rewrite Hout, Next_loop_done by (cbn; lia).
    unfold w3, w2, w1; cbn. by rewrite <- app_assoc.
  - destruct Hmw as (e & evs & Hcl & Hno & Hrun).
    exists e, evs. split; [done|]. split; [done|]. split; [done|]. intros k.
    rewrite Hstart, State_bind_run, Hrun. cbn [snd].
    set (w1 := {| ctx := set_index 64 (reject_with e (ctx w)); trace := tr ++ evs |}).
    assert (Hout : (index_incr;; Next_loop (S k) hs) (rejected e evs w)
                   = Next_loop (S k) hs w1) by reflexivity.
    rewrite Hout, Next_loop_done by (cbn; lia). done.
Qed.

(** The same loop on a call of another method: the middleware returns at
    once and the loop goes on to the API handler. *)
Lemma gated_loop_other_method rdb cfg name (w : World) :
  index (ctx w) = 3 →
  Method (Request (ctx w)) ≠ MethodPost →
  let hs := handler rdb cfg
              <$> [Recovery; CorsHandler; GinParseOperationID; ParseToken; Api name] in
  let c1 := set_index 4 (ctx w) in
  ∀ k, Next_loop (S (S k)) hs w
       = (tt, {| ctx := set_index 5 (ApiBody name c1);
                 trace := trace w ++ [EvHandler name c1] |}).
Proof.
  intros Hi Hm hs c1 k.
  pose proof (λ c, GinParseToken_other_method rdb cfg c w Hm) as Hmw.
  destruct w as [[req keys wr idx] tr]. cbn in Hi, Hm. subst idx.
  set (w := {| ctx := {| Request := req; Keys := keys; Writer := wr; index := 3 |};
               trace := tr |}) in *.
  rewrite (Next_loop_step _ hs w (GinParseToken rdb cfg)) by (cbn; done || lia).
  rewrite State_bind_run, Hmw. cbn [snd].
  set (w1 := {| ctx := c1; trace := tr |}).
  assert (Hin : (index_incr;; Next_loop (S k) hs) w = Next_loop (S k) hs w1)
    by reflexivity.
  rewrite Hin.
  rewrite (Next_loop_step _ hs w1 (ApiHandler name)) by (cbn; done || lia).
  set (w2 := {| ctx := set_index 5 (ApiBody name c1);
                trace := tr ++ [EvHandler name c1] |}).
  assert (Hapi : (ApiHandler name (index_incr;; Next_loop k hs);;
                  index_incr;; Next_loop k hs) w1
                 = Next_loop k hs w2) by reflexivity.
  rewrite Hapi, Next_loop_done by (cbn; lia). done.
Qed.

(** C6: on a POST call the middleware runs the rest of the chain exactly
    when the token check accepts, on the call with the user ID and the
    platform name bound and nothing else of it changed.  On every other POST
    call it writes one error of its classes and aborts, whatever the rest of
    the chain is: no key is bound, the request is untouched.  On the chain
    of a gated route of the router, where the API handler follows the
    middleware, that handler is therefore entered, once and with the bound
    context, exactly when the token check accepts. *)
Theorem ParseToken_frame rdb cfg (w : World) :
  Method (Request (ctx w)) = MethodPost →
  match accepted_claims rdb cfg (ctx w) with
  | Some claims =>
      (∀ c_Next, GinParseToken rdb cfg c_Next w = c_Next (admitted claims w))
      ∧ trace (admitted claims w)
        = trace w ++ [EvGetTokens (UserID claims) (PlatformID claims)]
      ∧ Request (ctx (admitted claims w)) = Request (ctx w)
      ∧ Writer (ctx (admitted claims w)) = Writer (ctx w)
      ∧ index (ctx (admitted claims w)) = index (ctx w)
      ∧ Keys (ctx (admitted claims w))
        = <[constant.OpUserID := UserID claims]>
            (<[constant.OpUserPlatform := PlatformIDToName (PlatformID claims)]>
               (Keys (ctx w)))
      ∧ Keys (ctx (admitted claims w)) !! constant.OpUserID = Some (UserID claims)
      ∧ Keys (ctx (admitted claims w)) !! constant.OpUserPlatform
        = Some (PlatformIDToName (PlatformID claims))
      ∧ ∀ r k, r ∈ newGinRouter → gated r = true → at_ParseToken r w →
          ∃ name,
            Handlers r !! Z.to_nat (index (ctx w) + 1) = Some (Api name)
            ∧ handler_runs (loop_events (S (S k)) rdb cfg r w)
              = [(name, set_index (index (ctx w) + 1) (bind_identity claims (ctx w)))]
  | None =>
      ∃ e evs,
        errs.Code e ∈ rejection_classes
        ∧ handler_runs evs = []
        ∧ (∀ c_Next, GinParseToken rdb cfg c_Next w = (tt, rejected e evs w))
        ∧ trace (rejected e evs w) = trace w ++ evs
        ∧ Keys (ctx (rejected e evs w)) = Keys (ctx w)
        ∧ Request (ctx (rejected e evs w)) = Request (ctx w)
        ∧ Writer (ctx (rejected e evs w)) = Writer (ctx w) ++ [BodyError e]
        ∧ IsAborted (ctx (rejected e evs w)) = true
        ∧ ∀ r k, r ∈ newGinRouter → gated r = true → at_ParseToken r w →
            handler_runs (loop_events (S (S k)) rdb cfg r w) = []
  end.
Proof.
  intros Hm.
  pose proof (GinParseToken_POST rdb cfg w Hm) as Hmw.
  assert (Hloop : ∀ r, r ∈ newGinRouter → gated r = true → at_ParseToken r w →
            ∃ name, Handlers r
                    = [Recovery; CorsHandler; GinParseOperationID; ParseToken; Api name]
                    ∧ index (ctx w) = 3).
  { intros r Hin Hg Hat. destruct (gated_route_chain r Hin Hg) as [name Hch].
    exists name. split; [done|]. by eapply at_ParseToken_place. }
  destruct (accepted_claims rdb cfg (ctx w)) as [claims|] eqn:Hacc.
  - split; [exact Hmw|]. repeat split.
    + cbn. apply lookup_insert_eq.
    + cbn. rewrite lookup_insert_ne by done. apply lookup_insert_eq.
    + intros r k Hin Hg Hat. destruct (Hloop r Hin Hg Hat) as (name & Hch & Hi).
      exists name. rewrite Hi, Hch. split; [reflexivity|].
      pose proof (gated_loop_POST rdb cfg name w Hi Hm) as Hrun. cbv zeta in Hrun.
      rewrite Hacc in Hrun.
      unfold loop_events, exec, chain. rewrite Hch, (Hrun k). cbn [snd trace].
      rewrite drop_app_length. reflexivity.
  - destruct Hmw as (e & evs & Hcl & Hno & Hrun).
    exists e, evs. repeat split; try done.
    intros r k Hin Hg Hat. destruct (Hloop r Hin Hg Hat) as (name & Hch & Hi).
    pose proof (gated_loop_POST rdb cfg name w Hi Hm) as Hrun'. cbv zeta in Hrun'.
    rewrite Hacc in Hrun'. destruct Hrun' as (e' & evs' & _ & Hno' & _ & Hrun').
    unfold loop_events, exec, chain. rewrite Hch, (Hrun' k). cbn [snd trace].
    rewrite drop_app_length. exact Hno'.
Qed.

(** C4, as amended: on the chain of a gated route the token check covers
    POST calls.  From the moment the engine's loop stands at the token
    middleware, no API handler is entered on a POST call unless the call's
    token is present, decodes and is held as normal in the registry, and
    then only after the lookup for its user and platform and with that
    identity bound in the handler's context.  On a call of any other method
    the middleware does nothing: the registry is not consulted and the API
    handler is entered with the context as it reached the middleware. *)
Theorem ParseToken_guards_POST_calls rdb cfg (r : RouteInfo) (w : World) (k : nat) :
  r ∈ newGinRouter → gated r = true → at_ParseToken r w →
  (Method (Request (ctx w)) = MethodPost →
   token_checked rdb cfg (ctx w) (loop_events (S (S k)) rdb cfg r w))
  ∧ (Method (Request (ctx w)) ≠ MethodPost →
     lookups (loop_events (S (S k)) rdb cfg r w) = []
     ∧ ∃ name,
         handler_runs (loop_events (S (S k)) rdb cfg r w)
         = [(name, set_index (index (ctx w) + 1) (ctx w))]).
Proof.
  intros Hin Hg Hat.
  destruct (gated_route_chain r Hin Hg) as [name Hch].
  pose proof (at_ParseToken_place r w name Hch Hat) as Hi.
  unfold loop_events, exec, chain. rewrite Hch.
  split; intros Hm.
  - pose proof (gated_loop_POST rdb cfg name w Hi Hm) as Hrun. cbv zeta in Hrun.
    destruct (accepted_claims rdb cfg (ctx w)) as [claims|] eqn:Hacc.
    + rewrite (Hrun k). cbn [snd trace]. rewrite drop_app_length.
      intros [|[|i]] n c Hev; simplify_eq/=.
      exists claims. rewrite Hacc. split; [done|].
      split; [exists 0%nat; split; [lia|done]|].
      rewrite lookup_insert_eq, lookup_insert_ne, lookup_insert_eq by done. done.
    + destruct Hrun as (e & evs & _ & Hno & _ & Hrun).
      rewrite (Hrun k). cbn [snd trace]. rewrite drop_app_length.
      intros i n c Hev. exfalso.
      assert ((n, c) ∈ handler_runs evs) as Hel.
      { unfold handler_runs. apply list_elem_of_omap.
        exists (EvHandler n c). split; [|done]. by eapply list_elem_of_lookup_2. }
      rewrite Hno in Hel. by apply not_elem_of_nil in Hel.
  - pose proof (gated_loop_other_method rdb cfg name w Hi Hm) as Hrun.
    cbv zeta in Hrun. rewrite (Hrun k). cbn [snd trace].
    rewrite drop_app_length, Hi. split; [reflexivity | by exists name].
Qed.
End api_properties.

(** ** The properties on the sample calls *)

Section samples.
Import config http gin tokenverify api fixtures.

(** The gated routes of the router that are not POST routes. *)
Example gated_GET_routes :
  filter (λ r, gated r = true ∧ RouteMethod r ≠ MethodPost) newGinRouter
  = [ {| RouteMethod := MethodGet; Path := "/third/prometheus";
         Handlers := [Recovery; CorsHandler; GinParseOperationID;
                      ParseToken; Api "t.GetPrometheus"] |};
      {| RouteMethod := MethodGet; Path := "/object/*name";
         Handlers := [Recovery; CorsHandler; GinParseOperationID;
                      ParseToken; Api "t.ObjectRedirect"] |} ].
Proof. vm_compute. reflexivity. Qed.

(** C4, as stated, fails: a GET call without a token on the gated route
    [/third/prometheus], once the loop stands at the token middleware, enters
    the API handler although its token was never checked: no token is
    presented, the registry is not consulted and no identity is bound. *)
Lemma ParseToken_idle_on_GET :
  route_prometheus ∈ newGinRouter
  ∧ gated route_prometheus = true
  ∧ at_ParseToken route_prometheus (arrived 3 (call MethodGet ∅))
  ∧ handler_runs (@loop_events registry_deps passing_middleware 2 registry0 cfg0
                    route_prometheus (arrived 3 (call MethodGet ∅)))
    = [("t.GetPrometheus",
        {| Request := {| Method := MethodGet; Header := ∅ |};
           Keys := ∅; Writer := []; index := 4 |})]
  ∧ lookups (@loop_events registry_deps passing_middleware 2 registry0 cfg0
               route_prometheus (arrived 3 (call MethodGet ∅))) = []
  ∧ ¬ @token_checked registry_deps registry0 cfg0 (ctx (arrived 3 (call MethodGet ∅)))
        (@loop_events registry_deps passing_middleware 2 registry0 cfg0
           route_prometheus (arrived 3 (call MethodGet ∅))).
Proof.
  split; [apply (bool_decide_unpack _); vm_compute; exact I|].
  split; [reflexivity|].
  split; [split; [reflexivity | split; [done | reflexivity]]|].
  split; [reflexivity|]. split; [reflexivity|].
  intros Hg.
  destruct (Hg 0%nat "t.GetPrometheus"
              {| Request := {| Method := MethodGet; Header := ∅ |};
                 Keys := ∅; Writer := []; index := 4 |} eq_refl)
    as (claims & Hacc & _).
  vm_compute in Hacc. discriminate Hacc.
Qed.

(** The amended C4 on the same GET call, and on a POST call with the
    current token of U9. *)
Lemma ParseToken_guards_POST_calls_sample :
  @token_checked registry_deps registry0 cfg0 (ctx (arrived 3 (post_with "T1")))
    (@loop_events registry_deps passing_middleware 2 registry0 cfg0
       route_update_user_info (arrived 3 (post_with "T1")))
  ∧ lookups (@loop_events registry_deps passing_middleware 2 registry0 cfg0
               route_prometheus (arrived 3 (call MethodGet ∅))) = [].
Proof.
  split.
  - apply (@ParseToken_guards_POST_calls registry_deps passing_middleware registry0 cfg0
             route_update_user_info (arrived 3 (post_with "T1")) 0);
      [apply (bool_decide_unpack _); vm_compute; exact I | reflexivity
      | split; [reflexivity | split; [done | reflexivity]] | reflexivity].
  - apply (@ParseToken_guards_POST_calls registry_deps passing_middleware registry0 cfg0
             route_prometheus (arrived 3 (call MethodGet ∅)) 0);
      [apply (bool_decide_unpack _); vm_compute; exact I | reflexivity
      | split; [reflexivity | split; [done | reflexivity]] | vm_compute; discriminate].
Defined.

(** C5 on a POST call without headers. *)
Lemma GinParseToken_missing_token_sample :
  IsAborted (ctx (exec (@GinParseToken registry_deps registry0 cfg0 (mret tt))
                       (call MethodPost ∅))) = true.
Proof.
  apply (@GinParseToken_missing_token registry_deps registry0 cfg0 (mret tt)
           (call MethodPost ∅)); reflexivity.
Defined.

(** C8 on a POST call with a token that does not decode. *)
Lemma GinParseToken_undecodable_token_sample :
  @GinParseToken registry_deps registry0 cfg0 (mret tt) (post_with "garbage")
  = (tt, rejected (errs.Wrap errs.ErrTokenUnknown [])
           [EvZWarn "jwt get token error" (errs.Wrap errs.ErrTokenUnknown [])]
           (post_with "garbage")).
Proof.
  apply (@GinParseToken_undecodable_token registry_deps registry0 cfg0 (mret tt)
           (post_with "garbage"));
    [reflexivity | vm_compute; discriminate | reflexivity].
Defined.

(** C1 on POST calls of U9: the kicked token T0 and the current token T1. *)
Lemma GinParseToken_token_state_sample :
  @GinParseToken registry_deps registry0 cfg0 (mret tt) (post_with "T0")
  = (tt, rejected (errs.Wrap errs.ErrTokenKicked []) [EvGetTokens "U9" 2]
           (post_with "T0")).
Proof.
  apply (@GinParseToken_token_state registry_deps registry0 cfg0 (mret tt)
           (post_with "T0") (mkClaims "U9" 2)
           {[ "T0" := constant.KickedToken; "T1" := constant.NormalToken ]} None);
    [reflexivity | vm_compute; discriminate | reflexivity | reflexivity
    | reflexivity | reflexivity].
Defined.

(** C9 on a POST call of U9 while the registry cannot be reached. *)
Lemma GinParseToken_store_failure_sample :
  @GinParseToken registry_deps None cfg0 (mret tt) (post_with "T1")
  = (tt, rejected (errs.Wrap errs.ErrTokenNotExist []) [EvGetTokens "U9" 2]
           (post_with "T1")).
Proof.
  apply (@GinParseToken_store_failure registry_deps None cfg0 (mret tt)
           (post_with "T1") (mkClaims "U9" 2) ∅ "redis: connection refused");
    [reflexivity | vm_compute; discriminate | reflexivity | reflexivity].
Defined.

(** C6 on a POST call of U9 with the current token, on a gated route: the
    handler is entered with U9 bound. *)
Lemma ParseToken_frame_sample :
  handler_runs (@loop_events registry_deps passing_middleware 2 registry0 cfg0
                  route_update_user_info (arrived 3 (post_with "T1")))
  = [("u.UpdateUserInfo",
      set_index 4 (@bind_identity registry_deps (mkClaims "U9" 2)
                     (ctx (post_with "T1"))))].
Proof.
  pose proof (@ParseToken_frame registry_deps passing_middleware registry0 cfg0
                (arrived 3 (post_with "T1")) eq_refl) as Hf.
  assert (Hacc : @accepted_claims registry_deps registry0 cfg0
                   (ctx (arrived 3 (post_with "T1"))) = Some (mkClaims "U9" 2))
    by reflexivity.
  rewrite Hacc in Hf. destruct Hf as (_ & _ & _ & _ & _ & _ & _ & _ & Hr).
  destruct (Hr route_update_user_info 0%nat) as (name & Hn & Hruns);
    [apply (bool_decide_unpack _); vm_compute; exact I | reflexivity
    | split; [reflexivity | split; [done | reflexivity]] |].
  injection Hn as <-. exact Hruns.
Defined.

(** C3, as stated, fails: a direct message whose options do not hold the
    sender-sync switch goes to the receiver and to the sender. *)
Lemma PushMsg_sender_sync_unset :
  sdkws.Options plain_msg !! constant.IsSenderSync = None
  ∧ sdkws.SessionType plain_msg ≠ constant.SuperGroupChatType
  ∧ (@push.pusher_calls scripted_pusher
       (@push.PushMsg_events scripted_pusher
          (pbpush.mkPushMsgReq (Some plain_msg)) (push_world []))).*1
    = [push.CallPush2User ["U2"; "U1"] plain_msg]
  ∧ (@push.pusher_calls scripted_pusher
       (@push.PushMsg_events scripted_pusher
          (pbpush.mkPushMsgReq (Some plain_msg)) (push_world []))).*1
    ≠ [push.CallPush2User ["U2"] plain_msg].
Proof.
  split; [reflexivity|]. split; [vm_compute; discriminate|].
  split; [reflexivity|]. vm_compute. discriminate.
Qed.

(** The amended C3 on a direct message with sender-sync switched off, and
    on one without the switch. *)
Lemma PushMsg_direct_recipients_sample :
  (@push.pusher_calls scripted_pusher
     (@push.PushMsg_events scripted_pusher
        (pbpush.mkPushMsgReq (Some (direct_msg false))) (push_world []))).*1
  = [push.CallPush2User ["U2"] (direct_msg false)]
  ∧ (@push.pusher_calls scripted_pusher
       (@push.PushMsg_events scripted_pusher
          (pbpush.mkPushMsgReq (Some plain_msg)) (push_world []))).*1
    = [push.CallPush2User ["U2"; "U1"] plain_msg].
Proof.
  split.
  - apply (@PushMsg_direct_recipients scripted_pusher
             (pbpush.mkPushMsgReq (Some (direct_msg false))) (direct_msg false)
             (push_world []));
      [reflexivity | vm_compute; discriminate | reflexivity].
  - apply (@PushMsg_direct_recipients scripted_pusher
             (pbpush.mkPushMsgReq (Some plain_msg)) plain_msg (push_world []));
      [reflexivity | vm_compute; discriminate | vm_compute; discriminate].
Defined.


(** C2 on a direct message whose delivery fails for another reason than a
    missing offline pusher: the pusher's error is what [PushMsg] returns. *)
Lemma PushMsg_error_policy_sample :
  eval (@push.PushMsg scripted_pusher (pbpush.mkPushMsgReq (Some (direct_msg true))))
    (push_world [Some "rpc timeout"])
  = Returns (None, Some "rpc timeout").
Proof.
  destruct (@PushMsg_error_policy scripted_pusher
              (pbpush.mkPushMsgReq (Some (direct_msg true))) (direct_msg true)
              (push_world [Some "rpc timeout"]) eq_refl)
    as (call & [-> | ->] & _ & _ & _ & _ & Hother);
    (apply (Hother "rpc timeout"); [reflexivity | vm_compute; discriminate]).
Defined.

(** The same message when no offline pusher is configured. *)
Example PushMsg_without_offline_pusher :
  @push.PushMsg scripted_pusher (pbpush.mkPushMsgReq (Some (direct_msg true)))
    (push_world [Some "no offlinePusher is configured"])
  = (Returns (Some pbpush.mkPushMsgResp, None),
     @push.mkWorld scripted_pusher []
       [@push.EvPusher scripted_pusher
          (push.CallPush2User ["U2"; "U1"] (direct_msg true))
          (Some "no offlinePusher is configured");
        @push.EvZWarn scripted_pusher "offline push failed"
          "no offlinePusher is configured"
          (pbpush.mkPushMsgReq (Some (direct_msg true)))]).
Proof. reflexivity. Qed.

(** A request without an event. *)
Example PushMsg_without_MsgData :
  @push.PushMsg scripted_pusher (pbpush.mkPushMsgReq None) (push_world [])
  = (Panics, push_world []).
Proof. reflexivity. Qed.

(** A POST call of U9 with the current token, from the token middleware of
    a gated route on: the registry is consulted, the identity is bound, the
    handler runs. *)
Example loop_current_token :
  exec (Next_loop 2 (@chain registry_deps passing_middleware registry0 cfg0
                       route_update_user_info))
       (arrived 3 (post_with "T1"))
  = {| ctx := {| Request := {| Method := MethodPost; Header := {[ "Token" := ["T1"] ]} |};
                 Keys := {[ "opUserID" := "U9"; "platform" := "Android" ]};
                 Writer := [BodyData "u.UpdateUserInfo"];
                 index := 6 |};
       trace := [EvGetTokens "U9" 2;
                 EvHandler "u.UpdateUserInfo"
                   {| Request := {| Method := MethodPost;
                                    Header := {[ "Token" := ["T1"] ]} |};
                      Keys := {[ "opUserID" := "U9"; "platform" := "Android" ]};
                      Writer := []; index := 4 |}] |}.
Proof. vm_compute. reflexivity. Qed.

(** The same call with a token of a user the registry has no record of. *)
Example loop_absent_token :
  exec (Next_loop 2 (@chain registry_deps passing_middleware registry0 cfg0
                       route_update_user_info))
       (arrived 3 (post_with "T7"))
  = {| ctx := {| Request := {| Method := MethodPost; Header := {[ "Token" := ["T7"] ]} |};
                 Keys := ∅;
                 Writer := [BodyError (errs.Wrap errs.ErrTokenNotExist [])];
                 index := 64 |};
       trace := [EvGetTokens "U7" 1] |}.
Proof. vm_compute. reflexivity. Qed.
End samples.


(** * Further properties of the code *)

Section authverify_access.
Import config authverify.
Context `{Tools}.

(** X1: [CheckAccessV3] lets a caller through exactly when the caller is an
    app manager or is the owner; every other caller gets the no-permission
    error naming the owner. *)
Theorem CheckAccessV3_admin_or_owner (ctx : Ctx) (owner : string) (cfg : GlobalConfig) :
  (CheckAccessV3 ctx owner cfg = None
   ↔ IsAppManagerUid ctx cfg = true ∨ GetOpUserID ctx = owner)
  ∧ (CheckAccessV3 ctx owner cfg ≠ None →
     CheckAccessV3 ctx owner cfg
       = Some (errs.Wrap errs.ErrNoPermission ["ownerUserID"; owner])).
Proof.
  unfold CheckAccessV3, IsAppManagerUid.
  destruct (0 <? len (Manager_UserID cfg));
    destruct (IsContain (GetOpUserID ctx) (Manager_UserID cfg));
    destruct (IsContain (GetOpUserID ctx) (IMAdmin_UserID cfg));
    destruct (String.eqb_spec (GetOpUserID ctx) owner);
    cbn; split; try done; split; intros; try done; try (by left); try (by right);
    match goal with Hor : _ ∨ _ |- _ => destruct Hor; done end.
Qed.

(** X2: whoever passes [CheckAdmin] or [CheckIMAdmin] passes [CheckAccessV3]
    for every owner, and every caller passes it for itself. *)
Theorem CheckAccessV3_extends_admin (ctx : Ctx) (cfg : GlobalConfig) :
  (∀ owner, CheckAdmin ctx cfg = None → CheckAccessV3 ctx owner cfg = None)
  ∧ (∀ owner, CheckIMAdmin ctx cfg = None → CheckAccessV3 ctx owner cfg = None)
  ∧ CheckAccessV3 ctx (GetOpUserID ctx) cfg = None.
Proof.
  unfold CheckAccessV3, CheckAdmin, CheckIMAdmin.
  rewrite String.eqb_refl.
  destruct (0 <? len (Manager_UserID cfg));
    destruct (IsContain (GetOpUserID ctx) (Manager_UserID cfg));
    destruct (IsContain (GetOpUserID ctx) (IMAdmin_UserID cfg));
    cbn; repeat split; intros; done.
Qed.

(** X3: with no manager configured, admin rights come from the IM-admin
    list alone: the manager list is not consulted, whatever [IsContain]
    would answer on an empty list. *)
Theorem admin_checks_without_manager (ctx : Ctx) (cfg : GlobalConfig) :
  Manager_UserID cfg = [] →
  (CheckAdmin ctx cfg = None ↔ IsContain (GetOpUserID ctx) (IMAdmin_UserID cfg) = true)
  ∧ (CheckIMAdmin ctx cfg = None
     ↔ IsContain (GetOpUserID ctx) (IMAdmin_UserID cfg) = true)
  ∧ IsAppManagerUid ctx cfg = IsContain (GetOpUserID ctx) (IMAdmin_UserID cfg)
  ∧ ∀ opUserID,
      IsManagerUserID opUserID cfg = IsContain opUserID (IMAdmin_UserID cfg).
Proof.
  intros Hno. unfold CheckAdmin, CheckIMAdmin, IsAppManagerUid, IsManagerUserID.
  rewrite Hno. cbn.
  destruct (IsContain (GetOpUserID ctx) (IMAdmin_UserID cfg)); repeat split; done.
Qed.
End authverify_access.

Section token_claims.
Import config http gin tokenverify api authverify_claims.
Context `{DecodeFailures}.

(** X4: [WsVerifyToken] returns no error exactly when the token decodes,
    under the secret's key, to claims of the given user on the given
    platform. *)
Theorem WsVerifyToken_nil_iff (token userID secret : string) (platformID : Z) :
  WsVerifyToken token userID secret platformID = None
  ↔ api.GetClaimFromToken token (authverify.Secret secret)
    = Some {| UserID := userID; PlatformID := platformID |}.
Proof.
  unfold WsVerifyToken, GetClaimFromToken.
  destruct (api.GetClaimFromToken token (authverify.Secret secret)) as [[u p]|]; cbn.
  - destruct (String.eqb_spec u userID), (Z.eqb_spec p platformID); cbn;
      split; intros; simplify_eq; done.
  - split; intros; done.
Qed.

(** X5: what [WsVerifyToken] reports.  A token that does not decode yields
    the decoder's own error.  A user mismatch is reported as an invalid
    token naming both users, whether or not the platform matches too; a
    platform mismatch is reported, with both platforms in decimal, only when
    the user matches. *)
Theorem WsVerifyToken_errors (token userID secret : string) (platformID : Z) :
  match api.GetClaimFromToken token (authverify.Secret secret) with
  | None =>
      WsVerifyToken token userID secret platformID
      = Some (DecodeFailure (GetClaimFromToken_err token (authverify.Secret secret)))
  | Some claim =>
      (UserID claim ≠ userID →
       WsVerifyToken token userID secret platformID
       = Some (ErrTokenInvalid
                 ("token uid " +:+ UserID claim +:+ " != userID " +:+ userID)))
      ∧ (UserID claim = userID → PlatformID claim ≠ platformID →
         WsVerifyToken token userID secret platformID
         = Some (ErrTokenInvalid
                   ("token platform " +:+ pretty (PlatformID claim)
                      +:+ " != " +:+ pretty platformID)))
  end.
Proof.
  unfold WsVerifyToken, GetClaimFromToken.
  destruct (api.GetClaimFromToken token (authverify.Secret secret)) as [[u p]|]; cbn;
    [|reflexivity].
  destruct (String.eqb_spec u userID), (Z.eqb_spec p platformID); cbn;
    split; intros; done.
Qed.

(** X6: reading a token back from redis agrees with verifying it.  A byte
    string parses to claims exactly when [WsVerifyToken] accepts the same
    token for the user and platform of those claims; a value of any other
    dynamic type makes the type assertion panic. *)
Theorem ParseRedisInterfaceToken_WsVerifyToken
    (redisToken : any) (secret : string) (claims : Claims) :
  (∀ b, redisToken = AnyBytes b →
        (ParseRedisInterfaceToken redisToken secret = Some (inl claims)
         ↔ WsVerifyToken b (UserID claims) secret (PlatformID claims) = None))
  ∧ ((∀ b, redisToken ≠ AnyBytes b) → ParseRedisInterfaceToken redisToken secret = None).
Proof.
  split.
  - intros b ->. unfold ParseRedisInterfaceToken, WsVerifyToken, GetClaimFromToken.
    destruct claims as [u p]; cbn.
    destruct (api.GetClaimFromToken b (authverify.Secret secret)) as [[u' p']|]; cbn.
    + destruct (String.eqb_spec u' u), (Z.eqb_spec p' p); cbn;
        split; intros; simplify_eq; done.
    + split; intros; done.
  - intros Hty. destruct redisToken; try reflexivity. by destruct (Hty b).
Qed.

(** X7: the web-socket check and the API middleware agree.  A non-empty
    token that [WsVerifyToken] accepts for a user and platform under the
    configured secret, and that the registry holds as normal for them, is
    let through by [GinParseToken] on a POST call, with that user and the
    name of that platform bound. *)
Theorem WsVerifyToken_then_GinParseToken
    (rdb : UniversalClient) (cfg : GlobalConfig) (c_Next : State (gin.World Event) unit)
    (w : gin.World Event) (userID : string) (platformID : Z) (m : gmap string Z) :
  Method (Request (ctx w)) = MethodPost →
  presented_token (ctx w) ≠ "" →
  WsVerifyToken (presented_token (ctx w)) userID (config.Secret cfg) platformID = None →
  store_lookup rdb cfg {| UserID := userID; PlatformID := platformID |} = (m, None) →
  m !! presented_token (ctx w) = Some constant.NormalToken →
  GinParseToken rdb cfg c_Next w
    = c_Next (admitted {| UserID := userID; PlatformID := platformID |} w)
  ∧ Keys (ctx (admitted {| UserID := userID; PlatformID := platformID |} w))
      !! constant.OpUserID = Some userID
  ∧ Keys (ctx (admitted {| UserID := userID; PlatformID := platformID |} w))
      !! constant.OpUserPlatform = Some (PlatformIDToName platformID).
Proof.
  intros Hm Ht Hws Hl Hs.
  assert (Hd : api.GetClaimFromToken (presented_token (ctx w))
                 (authverify.Secret (config.Secret cfg))
               = Some {| UserID := userID; PlatformID := platformID |}).
  { revert Hws. unfold WsVerifyToken, GetClaimFromToken.
    destruct (api.GetClaimFromToken _ _) as [[u p]|]; cbn; [|done].
    destruct (String.eqb_spec u userID), (Z.eqb_spec p platformID); cbn;
      intros; simplify_eq; done. }
  rewrite (GinParseToken_decoded _ _ _ _ _ _ _ Hm Ht Hd Hl), Hs.
  destruct (decide (None ≠ None)) as [?|_]; [done|].
  destruct (decide _) as [_|?]; [|done].
  split; [reflexivity|]. cbn. split.
  - apply lookup_insert_eq.
  - rewrite lookup_insert_ne by done. apply lookup_insert_eq.
Qed.
End token_claims.

Section middleware_causes.
Import config http gin tokenverify api.
Context `{Deps}.

(** Opens the cause assumed in a goal. *)
Ltac open_cause :=
  repeat match goal with
    | H : _ ∧ _ |- _ => destruct H
    | H : ∃ _, _ |- _ => destruct H
    | H : _ ∨ _ |- _ => destruct H
    end;
  simplify_eq.

(** X9: the class of a rejection tells its cause.  On a POST call that is
    not accepted the middleware writes one error, the same whatever follows
    in the chain, and its class is: the argument error exactly for a missing
    token; token-kicked exactly for a decoded token the registry holds as
    kicked; token-does-not-exist exactly for a decoded token whose lookup
    failed or has no entry for it; unrecognized-token for a token that does
    not decode and also for a decoded token held in any other state. *)
Theorem GinParseToken_rejection_cause
    (rdb : UniversalClient) (cfg : GlobalConfig) (w : gin.World Event) :
  Method (Request (ctx w)) = MethodPost →
  accepted_claims rdb cfg (ctx w) = None →
  let tok := presented_token (ctx w) in
  let dec := GetClaimFromToken tok (authverify.Secret (config.Secret cfg)) in
  ∃ e evs,
    (∀ c_Next, GinParseToken rdb cfg c_Next w = (tt, rejected e evs w))
    ∧ (errs.Code e = errs.ErrArgs ↔ tok = "")
    ∧ (errs.Code e = errs.ErrTokenKicked
       ↔ tok ≠ "" ∧ ∃ claims, dec = Some claims
                     ∧ (store_lookup rdb cfg claims).2 = None
                     ∧ (store_lookup rdb cfg claims).1 !! tok = Some constant.KickedToken)
    ∧ (errs.Code e = errs.ErrTokenNotExist
       ↔ tok ≠ "" ∧ ∃ claims, dec = Some claims
                     ∧ ((store_lookup rdb cfg claims).2 ≠ None
                        ∨ (store_lookup rdb cfg claims).1 !! tok = None))
    ∧ (errs.Code e = errs.ErrTokenUnknown
       ↔ tok ≠ "" ∧ (dec = None
                     ∨ ∃ claims v, dec = Some claims
                         ∧ (store_lookup rdb cfg claims).2 = None
                         ∧ (store_lookup rdb cfg claims).1 !! tok = Some v
                         ∧ v ≠ constant.NormalToken ∧ v ≠ constant.KickedToken)).
Proof.
  intros Hm Hacc tok dec. subst tok dec.
  destruct (decide (presented_token (ctx w) = "")) as [Ht|Ht].
  { eexists _, _. split; [intros c; by apply GinParseToken_no_token|].
    cbn. repeat split; intros; open_cause; done. }
  destruct (GetClaimFromToken (presented_token (ctx w))
              (authverify.Secret (config.Secret cfg))) as [claims|] eqn:Hd.
  2: { eexists _, _. split; [intros c; by apply GinParseToken_undecoded|].
       cbn. repeat split; intros; open_cause; try done. by left. }
  destruct (store_lookup rdb cfg claims) as [m err] eqn:Hl.
  pose proof (λ c, GinParseToken_decoded rdb cfg c w claims m err Hm Ht Hd Hl) as Hrun.
  cbv zeta in Hrun.
  assert (Hnot : ¬ (err = None ∧ m !! presented_token (ctx w) = Some constant.NormalToken)).
  { intros [-> Hs].
    assert (accepted_claims rdb cfg (ctx w) = Some claims) as Hyes
        by (apply accepted_claims_Some; eauto).
    congruence. }
  destruct (decide (err ≠ None)) as [He|He].
  { eexists _, _. split; [exact Hrun|]. cbn.
    repeat split; intros; open_cause; rewrite ?Hl in *; cbn in *; try done.
    exists claims. rewrite Hl. cbn. by eauto. }
  apply dec_stable in He. subst err.
  destruct (m !! presented_token (ctx w)) as [v|] eqn:Hv.
  2: { eexists _, _. split; [exact Hrun|]. cbn.
       repeat split; intros; open_cause; rewrite ?Hl in *; cbn in *; try congruence.
       exists claims. rewrite Hl. cbn. by eauto. }
  destruct (decide (v = constant.NormalToken)) as [->|Hn]; [destruct Hnot; done|].
  destruct (decide (v = constant.KickedToken)) as [->|Hk].
  - eexists _, _. split; [exact Hrun|]. cbn.
    repeat split; intros; open_cause; rewrite ?Hl in *; cbn in *; try congruence.
    exists claims. rewrite Hl. cbn. by eauto.
  - eexists _, _. split; [exact Hrun|]. cbn.
    repeat split; intros; open_cause; rewrite ?Hl in *; cbn in *; try congruence.
    right. exists claims, v. rewrite Hl. cbn. by eauto.
Qed.
End middleware_causes.

Section router.
Import config http gin tokenverify api.

(** X11: the router leaves three routes without the token middleware, the
    ones a caller needs before it holds a token: registering users,
    getting a user token and parsing a token.  Every other route is gated. *)
Theorem newGinRouter_ungated_routes :
  filter (λ r, gated r = false) newGinRouter
  = [ {| RouteMethod := MethodPost; Path := "/user/user_register";
         Handlers := [Recovery; CorsHandler; GinParseOperationID;
                      Api "u.UserRegister"] |};
      {| RouteMethod := MethodPost; Path := "/auth/user_token";
         Handlers := [Recovery; CorsHandler; GinParseOperationID;
                      Api "a.UserToken"] |};
      {| RouteMethod := MethodPost; Path := "/auth/parse_token";
         Handlers := [Recovery; CorsHandler; GinParseOperationID;
                      Api "a.ParseToken"] |} ].
Proof. vm_compute. reflexivity. Qed.

(** X12: no two routes of the router have the same method and path, and the
    chain of every route is the three engine-wide handlers installed by
    [r.Use], then the token middleware if the route is gated, then exactly
    one API handler. *)
Theorem newGinRouter_routes_distinct :
  NoDup ((λ r, (RouteMethod r, Path r)) <$> newGinRouter)
  ∧ Forall (λ r, ∃ name,
              Handlers r
              = [Recovery; CorsHandler; GinParseOperationID]
                  ++ (if gated r then [ParseToken] else [])
                  ++ [Api name])
      newGinRouter.
Proof.
  split.
  - apply (bool_decide_unpack _). vm_compute. exact I.
  - assert (Hall : forallb
              (λ r, match Handlers r with
                    | [Recovery; CorsHandler; GinParseOperationID; Api _] =>
                        negb (gated r)
                    | [Recovery; CorsHandler; GinParseOperationID; ParseToken; Api _] =>
                        gated r
                    | _ => false
                    end) newGinRouter = true) by (vm_compute; reflexivity).
    rewrite forallb_forall in Hall. apply Forall_forall. intros r Hin.
    apply list_elem_of_In, Hall in Hin.
    repeat match type of Hin with
      | match ?l with [] => _ | _ :: _ => _ end = _ => destruct l; try done
      | match ?h with Recovery => _ | _ => _ end = _ => destruct h; try done
      end.
    all: try apply negb_true_iff in Hin; rewrite Hin; by eexists.
Qed.
End router.

Section push_results.
Import sdkws pbpush push.
Context `{Pusher}.

(** X13: how [PushMsg] ends.  On a request without [MsgData] it panics
    before it does anything.  On every other request it returns either a
    response and no error, or an error and no response, never both and
    never neither; and the error it returns is never
    [errNoOfflinePusher]. *)
Theorem PushMsg_response_or_error (pbData : PushMsgReq) (w : World) :
  match MsgData pbData with
  | None => PushMsg pbData w = (Panics, w)
  | Some _ =>
      eval (PushMsg pbData) w = Returns (Some mkPushMsgResp, None)
      ∨ ∃ e, eval (PushMsg pbData) w = Returns (None, Some e) ∧ e ≠ errNoOfflinePusher
  end.
Proof.
  destruct (MsgData pbData) as [msg|] eqn:Hmsg.
  - pose proof (PushMsg_run pbData msg w Hmsg) as Hrun; cbv zeta in Hrun.
    unfold eval. rewrite Hrun.
    destruct (pusher_answer _ _).1 as [e|]; [|by left].
    destruct (decide (e ≠ errNoOfflinePusher)); [right; by exists e | by left].
  - unfold PushMsg. rewrite Hmsg. reflexivity.
Qed.

(** X14: the recipients handed to [Push2User] start with the receiver and
    hold nobody but the receiver and the sender.  They are not deduplicated:
    the list names a user twice exactly when sender-sync is on and the
    sender is the receiver. *)
Theorem PushMsg_recipients_shape (pbData : PushMsgReq) (msg : sdkws.MsgData) (w : World) :
  MsgData pbData = Some msg →
  SessionType msg ≠ constant.SuperGroupChatType →
  ∃ userIDs,
    (pusher_calls (PushMsg_events pbData w)).*1 = [CallPush2User userIDs msg]
    ∧ head userIDs = Some (RecvID msg)
    ∧ (∀ u, u ∈ userIDs → u = RecvID msg ∨ u = SendID msg)
    ∧ (NoDup userIDs
       ↔ ¬ (utils.GetSwitchFromOptions (Options msg) constant.IsSenderSync = true
            ∧ SendID msg = RecvID msg)).
Proof.
  intros Hmsg Hty. rewrite (PushMsg_calls pbData msg w Hmsg).
  destruct (Z.eqb_spec (SessionType msg) constant.SuperGroupChatType); [done|].
  eexists. split; [reflexivity|]. unfold direct_recipients.
  destruct (utils.GetSwitchFromOptions _ _); cbn.
  - split; [done|]. split.
    { intros u Hu. apply elem_of_cons in Hu as [?|Hu]; [by left|].
      apply list_elem_of_singleton in Hu. by right. }
    split.
    + intros Hnd [_ Heq]. rewrite Heq in Hnd.
      apply NoDup_cons in Hnd as [Hnot _]. destruct Hnot.
      by apply list_elem_of_singleton.
    + intros Hne. apply NoDup_cons. split.
      * intros Hin. apply list_elem_of_singleton in Hin. by destruct Hne.
      * apply NoDup_singleton.
  - split; [done|]. split.
    { intros u Hu. apply list_elem_of_singleton in Hu. by left. }
    split.
    + intros _ [? _]; done.
    + intros _. apply NoDup_singleton.
Qed.
End push_results.

Section push_server_functions.
Import config push_server.

(** X15: [DelUserPushToken] asks the database once, to delete the token of
    exactly the request's user and platform, and returns a response when
    that succeeds; when it fails it returns no response and the database's
    error as it is, with no error treated as harmless. *)
Theorem DelUserPushToken_outcome `{PushDatabase} (req : DelUserPushTokenReq) (w : DbWorld) :
  ∃ ret,
    db_trace (exec (DelUserPushToken req) w)
      = db_trace w ++ [EvDelFcmToken (UserID req) (PlatformID req) ret]
    ∧ (DelFcmToken (UserID req) (PlatformID req) (database w)).1 = ret
    ∧ database (exec (DelUserPushToken req) w)
      = (DelFcmToken (UserID req) (PlatformID req) (database w)).2
    ∧ (ret = None → eval (DelUserPushToken req) w = (Some mkDelUserPushTokenResp, None))
    ∧ (∀ e, ret = Some e → eval (DelUserPushToken req) w = (None, Some e)).
Proof.
  unfold exec, eval, DelUserPushToken, database_DelFcmToken, mbind, State_bind.
  destruct (DelFcmToken _ _ _) as [[e|] d]; cbn; eexists;
    (split; [reflexivity|]); repeat split; intros; simplify_eq; done.
Qed.

(** X16: the outcomes of [Start].  If redis cannot be reached, that error is
    returned and nothing is registered or started.  Otherwise the RPC
    service is registered first, on the given server and with the given
    configuration; the consumer is then created over the very pusher that
    was registered, and it is started exactly when [Start] returns no
    error.  If the consumer cannot be created its error is returned with the
    service left registered. *)
Theorem Start_outcome `{Wiring} (cfg : GlobalConfig) (client : SvcDiscoveryRegistry)
    (server : GrpcServer) (tr : list StartEvent) :
  ∃ new,
    exec (Start cfg client server) tr = tr ++ new
    ∧ match NewRedis cfg with
      | inr err => eval (Start cfg client server) tr = Some err ∧ new = []
      | inl _ =>
          ∃ srv,
            server_config srv = cfg
            ∧ match NewConsumer cfg (pusher srv) with
              | inr err =>
                  eval (Start cfg client server) tr = Some err
                  ∧ new = [EvRegisterPushMsgServiceServer server srv]
              | inl consumer =>
                  eval (Start cfg client server) tr = None
                  ∧ new = [EvRegisterPushMsgServiceServer server srv;
                           EvConsumerStart consumer]
              end
      end.
Proof.
  unfold exec, eval, Start, mbind, State_bind, modify.
  destruct (NewRedis cfg) as [rdb|err]; cbn.
  2: { exists []. by rewrite app_nil_r. }
  destruct (NewConsumer cfg _) as [consumer|err] eqn:Hc; cbn.
  - eexists. rewrite <- app_assoc. split; [reflexivity|].
    eexists (mkPushServer _ _); cbn. split; [reflexivity|]. rewrite Hc. done.
  - eexists. split; [reflexivity|].
    eexists (mkPushServer _ _); cbn. split; [reflexivity|]. rewrite Hc. done.
Qed.
End push_server_functions.

(** ** The further properties on the sample calls *)

Section more_samples.
Import config http gin tokenverify api fixtures more_fixtures.

(** X3 for the IM admin of a deployment without managers. *)
Lemma admin_checks_without_manager_sample :
  @authverify.IsAppManagerUid plain_tools "imAdmin" cfg_no_manager = true.
Proof.
  destruct (@admin_checks_without_manager plain_tools "imAdmin" cfg_no_manager eq_refl)
    as (_ & _ & -> & _).
  reflexivity.
Defined.

(** X7 for the current token of U9 on platform 2. *)
Lemma WsVerifyToken_then_GinParseToken_sample :
  Keys (ctx (@admitted registry_deps {| UserID := "U9"; PlatformID := 2 |}
               (post_with "T1")))
    !! constant.OpUserPlatform = Some "Android".
Proof.
  apply (@WsVerifyToken_then_GinParseToken registry_deps quoting_decoder
           registry0 cfg0 (mret tt) (post_with "T1") "U9" 2
           {[ "T0" := constant.KickedToken; "T1" := constant.NormalToken ]});
    [reflexivity | vm_compute; discriminate | reflexivity | reflexivity | reflexivity].
Defined.

(** X8 for the expired token of U7. *)
Lemma GinParseToken_other_state_sample :
  @GinParseToken registry_deps registry_expired cfg0 (mret tt) (post_with "T7")
  = (tt, rejected (errs.Wrap errs.ErrTokenUnknown []) [EvGetTokens "U7" 1]
           (post_with "T7")).
Proof.
  apply (@GinParseToken_other_state registry_deps registry_expired cfg0 (mret tt)
           (post_with "T7") (mkClaims "U7" 1) {[ "T7" := constant.ExpiredToken ]}
           constant.ExpiredToken);
    [reflexivity | vm_compute; discriminate | reflexivity | reflexivity | reflexivity
    | vm_compute; discriminate | vm_compute; discriminate].
Defined.

(** X9 for the kicked token of U9: the class written is token-kicked. *)
Lemma GinParseToken_rejection_cause_sample :
  ∃ e evs,
    errs.Code e = errs.ErrTokenKicked
    ∧ ∀ c_Next, @GinParseToken registry_deps registry0 cfg0 c_Next (post_with "T0")
                = (tt, rejected e evs (post_with "T0")).
Proof.
  destruct (@GinParseToken_rejection_cause registry_deps registry0 cfg0 (post_with "T0")
              eq_refl eq_refl) as (e & evs & Hrun & _ & Hk & _).
  exists e, evs. split; [|exact Hrun].
  apply Hk. split; [vm_compute; discriminate|].
  exists (mkClaims "U9" 2). repeat split; reflexivity.
Defined.

(** X14 for a direct message with sender-sync on. *)
Lemma PushMsg_recipients_shape_sample :
  ∃ userIDs,
    (@push.pusher_calls scripted_pusher
       (@push.PushMsg_events scripted_pusher
          (pbpush.mkPushMsgReq (Some (direct_msg true))) (push_world []))).*1
    = [push.CallPush2User userIDs (direct_msg true)]
    ∧ head userIDs = Some "U2".
Proof.
  destruct (@PushMsg_recipients_shape scripted_pusher
              (pbpush.mkPushMsgReq (Some (direct_msg true))) (direct_msg true)
              (push_world []))
    as (ids & Hc & Hh & _); [reflexivity | vm_compute; discriminate|].
  exists ids. split; [exact Hc | exact Hh].
Defined.

(** Deleting the push token of a user that has one, and of one that has
    none. *)
Example DelUserPushToken_present :
  @push_server.DelUserPushToken fcm_table
    (push_server.mkDelUserPushTokenReq "U3" 2)
    (@push_server.mkDbWorld fcm_table {[ ("U3", 2) := "fcm-3" ]} [])
  = ((Some push_server.mkDelUserPushTokenResp, None),
     @push_server.mkDbWorld fcm_table ∅
       [@push_server.EvDelFcmToken fcm_table "U3" 2 None]).
Proof. vm_compute. reflexivity. Qed.

Example DelUserPushToken_missing :
  eval (@push_server.DelUserPushToken fcm_table
          (push_server.mkDelUserPushTokenReq "U3" 1))
       (@push_server.mkDbWorld fcm_table {[ ("U3", 2) := "fcm-3" ]} [])
  = (None, Some "redis: nil").
Proof. vm_compute. reflexivity. Qed.

(** Starting the push server with a consumer that cannot be created: the
    service is registered, the consumer is not started. *)
Example Start_without_consumer :
  @push_server.Start plain_wiring
    {| Secret := "openIM123"; TokenPolicy_Expire := -1;
       Manager_UserID := []; IMAdmin_UserID := [] |} "etcd" "grpc" []
  = (Some "kafka: no brokers",
     [@push_server.EvRegisterPushMsgServiceServer plain_wiring "grpc"
        (@push_server.mkPushServer plain_wiring "pusher of etcd"
           {| Secret := "openIM123"; TokenPolicy_Expire := -1;
              Manager_UserID := []; IMAdmin_UserID := [] |})]).
Proof. reflexivity. Qed.

(** The web-socket check on a token of another user, and on one of the
    right user but another platform. *)
Example WsVerifyToken_other_user :
  @authverify_claims.WsVerifyToken registry_deps quoting_decoder "T7" "U9" "openIM123" 2
  = Some (@authverify_claims.ErrTokenInvalid registry_deps quoting_decoder
            "token uid U7 != userID U9").
Proof. reflexivity. Qed.

Example WsVerifyToken_other_platform :
  @authverify_claims.WsVerifyToken registry_deps quoting_decoder "T1" "U9" "openIM123" 5
  = Some (@authverify_claims.ErrTokenInvalid registry_deps quoting_decoder
            "token platform 2 != 5").
Proof. vm_compute. reflexivity. Qed.
End more_samples.
